(** * allauth.mfa.forms: the MFA forms of django-allauth

    A shallow embedding of [allauth/mfa/forms.py].  Every form method is a
    computation in a state-and-exception monad over the form object and the
    world it talks to (rate limiter, data store, session, WebAuthn verifier).
    Python exceptions are values of [Exn]; state changes made before an
    exception is raised persist, as they do in Python.  Calls to the
    external collaborators are recorded in a log, so that statements about
    which collaborator was called, and in which order, can be made. *)

From stdpp Require Import gmap strings list fin_maps pretty.
From Stdlib Require Import ZArith Ascii.

Set Warnings "-register-all".
Open Scope string_scope.

(** ** Python values *)

(** What [json.loads] returns. *)
Inductive json : Type :=
| JNull
| JBool (b : bool)
| JNum (n : Z)
| JStr (s : string)
| JArr (items : list json)
| JObj (members : list (string * json)).

(** [fido2]'s attestation object, as far as the forms look into it:
    [credential["attestation_object"].auth_data.is_user_verified()]. *)
Record AuthData := { is_user_verified : bool }.
Record AttestationObject := { auth_data : AuthData }.

(** The mapping [parse_registration_credential] returns. *)
Record RegistrationCredential := {
  attestation_object : AttestationObject;
  client_data : string
}.

(** The mapping [parse_authentication_credential] returns. *)
Inductive AuthenticationCredential := MkAuthenticationCredential (raw : string).

(** What [complete_registration] and [complete_authentication] return. *)
Inductive AuthenticatorData := MkAuthenticatorData (raw : string).

(** What [get_credentials] returns, one per enrolled WebAuthn key. *)
Inductive AttestedCredentialData := MkAttestedCredentialData (raw : string).

(** The objects that end up in [cleaned_data]. *)
Inductive PyVal : Type :=
| VNone
| VStr (s : string)
| VBool (b : bool)
| VJson (j : json)
| VAuthenticationCredential (c : AuthenticationCredential)
| VRegistrationCredential (c : RegistrationCredential)
| VAuthenticatorData (d : AuthenticatorData).

(** Python truth value testing. *)
Definition json_truthy (j : json) : bool :=
  match j with
  | JNull => false
  | JBool b => b
  | JNum n => negb (n =? 0)%Z
  | JStr s => negb (String.eqb s "")
  | JArr items => match items with [] => false | _ => true end
  | JObj members => match members with [] => false | _ => true end
  end.

(** The parsed credentials are non-empty mappings, the authenticator data is
    a plain object: all of them are true. *)
Definition truthy (v : PyVal) : bool :=
  match v with
  | VNone => false
  | VStr s => negb (String.eqb s "")
  | VBool b => b
  | VJson j => json_truthy j
  | VAuthenticationCredential _ => true
  | VRegistrationCredential _ => true
  | VAuthenticatorData _ => true
  end.

(** [all([...])] *)
Definition all (vs : list PyVal) : bool := forallb truthy vs.

(** ** Exceptions *)

(** The text of a [ValidationError], kept symbolic: the adapters' messages
    are named by the adapter and the key they are looked up under. *)
Inductive Message : Type :=
| AccountErrorMessage (key : string)
    (* get_account_adapter().error_messages[key] *)
| MfaErrorMessage (key : string)
    (* get_adapter().error_messages[key] *)
| Literal (text : string)
| FieldErrorMessage (code : string)
    (* field.error_messages[code] *).

Inductive Exn : Type :=
| ValidationError (m : Message)
| BadSignature
| KeyError (key : string)
| JSONDecodeError (doc : string)
| TypeError
| Foreign (name : string)
    (* whatever a WebAuthn helper raises *).

Inductive Result (A : Type) : Type :=
| Ok (a : A)
| Raise (e : Exn).
Arguments Ok {A} a.
Arguments Raise {A} e.

(** The failures of the specification, as the code raises them. *)
Definition TooManyAttempts : Message := AccountErrorMessage "too_many_login_attempts".
Definition IncorrectCode : Message := MfaErrorMessage "incorrect_code".
Definition UnverifiedEmail : Message := MfaErrorMessage "unverified_email".
Definition TamperedState : Message := Literal "Tampered form.".
Definition PasswordlessUnsupported : Message :=
  Literal "This key does not support passwordless operation.".
Definition CannotDeleteAuthenticator : Message :=
  MfaErrorMessage "cannot_delete_authenticator".

Definition is_ValidationError (e : Exn) : bool :=
  match e with ValidationError _ => true | _ => false end.

(** ** The state-and-exception monad *)

Definition M (S A : Type) : Type := S → Result A * S.

Definition ret {S A} (a : A) : M S A := λ s, (Ok a, s).

Definition bind {S A C} (m : M S A) (k : A → M S C) : M S C :=
  λ s, match m s with
       | (Ok a, s') => k a s'
       | (Raise e, s') => (Raise e, s')
       end.

Definition raise {S A} (e : Exn) : M S A := λ s, (Raise e, s).

Definition gets {S A} (f : S → A) : M S A := λ s, (Ok (f s), s).

Definition modify {S} (f : S → S) : M S unit := λ s, (Ok tt, f s).

(** [try: body / except <class> as e: handler e]: the handler says which
    exceptions it takes; the others pass through. *)
Definition try_except {S A} (body : M S A) (handler : Exn → option (M S A)) : M S A :=
  λ s, match body s with
       | (Ok a, s') => (Ok a, s')
       | (Raise e, s') =>
           match handler e with
           | Some h => h s'
           | None => (Raise e, s')
           end
       end.

Definition of_result {S A} (r : Result A) : M S A := λ s, (r, s).

Notation "'do' x <- m ; k" := (bind m (λ x, k))
  (at level 10, x name, m at level 100, k at level 200).
Notation "m ;; k" := (bind m (λ _, k))
  (at level 100, k at level 200, right associativity).

(** ** The models the forms query *)

Record User := { pk : Z }.

Inductive AuthenticatorType := TOTP | RECOVERY_CODES | WEBAUTHN.

Record Authenticator := {
  authenticator_id : Z;
  authenticator_user : Z;          (* the owner's pk *)
  authenticator_type : AuthenticatorType;
  authenticator_data : string
}.

Record EmailAddress := {
  email_user : Z;                  (* the owner's pk *)
  email : string;
  verified : bool;
  primary : bool
}.

Definition AuthenticatorType_eqb (a b : AuthenticatorType) : bool :=
  match a, b with
  | TOTP, TOTP | RECOVERY_CODES, RECOVERY_CODES | WEBAUTHN, WEBAUTHN => true
  | _, _ => false
  end.

(** ** The collaborators *)

(** [allauth.core.ratelimit], over the state [RL] of its cache. *)
Class RateLimit (RL : Type) := {
  ratelimit_consume : string → string → RL → bool * RL;   (* action, key *)
  ratelimit_clear : string → string → RL → RL
}.

(** Everything else the forms call, over the state [B] of the store, the
    clock and the random source. *)
Class Services (B : Type) := {
  (* the rows of Authenticator.objects and EmailAddress.objects *)
  authenticator_rows : B → list Authenticator;
  email_rows : B → list EmailAddress;
  (* auth.wrap().validate_code(code) *)
  validate_code : Authenticator → PyVal → B → bool * B;
  (* allauth.mfa.totp *)
  generate_totp_secret : B → string * B;
  validate_totp_code : string → PyVal → B → bool;
  (* get_adapter().can_delete_authenticator(authenticator) *)
  can_delete_authenticator : Authenticator → B → bool;
  (* django.core.signing.Signer(): unsign raises BadSignature on None *)
  signer_sign : string → string;
  signer_unsign : string → option string;
  (* json: loads raises JSONDecodeError on None *)
  json_dumps : json → string;
  json_loads : string → option json;
  (* allauth.mfa.webauthn *)
  begin_authentication : User → B → (json * json) * B;
  begin_registration : B → (json * json) * B;
  get_credentials : User → B → list AttestedCredentialData;
  parse_authentication_credential : json → Result AuthenticationCredential;
  parse_registration_credential : json → Result RegistrationCredential;
  complete_authentication :
    PyVal → list AttestedCredentialData → PyVal → B → Result AuthenticatorData * B;
  complete_registration : PyVal → PyVal → B → Result AuthenticatorData * B
}.

(** The calls that are recorded. *)
Inductive Event : Type :=
| EvConsume (action key : string) (allowed : bool)
| EvClear (action key : string)
| EvQueryAuthenticators (user_pk : Z)
| EvValidateCode (auth : Authenticator) (code : PyVal) (ok : bool)
| EvQueryEmails (user_pk : Z)
| EvGetTotpSecret (regenerate : bool) (secret : string)
| EvValidateTotpCode (secret : string) (code : PyVal) (ok : bool)
| EvCompleteAuthentication (state credential : PyVal)
| EvCompleteRegistration (state credential : PyVal).

Record World (RL B : Type) := {
  limiter : RL;
  backend : B;
  session_totp_secret : option string;   (* the pending secret in the session *)
  log : list Event
}.
Arguments limiter {RL B} w.
Arguments backend {RL B} w.
Arguments session_totp_secret {RL B} w.
Arguments log {RL B} w.

Definition set_limiter {RL B} (r : RL) (w : World RL B) : World RL B :=
  {| limiter := r; backend := backend w;
     session_totp_secret := session_totp_secret w; log := log w |}.
Definition set_backend {RL B} (b : B) (w : World RL B) : World RL B :=
  {| limiter := limiter w; backend := b;
     session_totp_secret := session_totp_secret w; log := log w |}.
Definition set_session_totp_secret {RL B} (s : option string) (w : World RL B) : World RL B :=
  {| limiter := limiter w; backend := backend w;
     session_totp_secret := s; log := log w |}.
Definition record {RL B} (e : Event) (w : World RL B) : World RL B :=
  {| limiter := limiter w; backend := backend w;
     session_totp_secret := session_totp_secret w; log := log w ++ [e] |}.

(** ** django.forms, as far as these forms use it *)

(** [str.strip()].  A string is kept as the bytes of its UTF-8 encoding.
    White space is what [str.isspace] accepts: the characters U+0009 to
    U+000D, U+001C to U+0020, U+0085, U+00A0, U+1680, U+2000 to U+200A,
    U+2028, U+2029, U+202F, U+205F and U+3000, listed by their encodings. *)
Definition utf8 (bytes : list nat) : string :=
  fold_right (λ n s, String (ascii_of_nat n) s) EmptyString bytes.

Definition whitespace : list string :=
  List.map utf8
    [ [9]; [10]; [11]; [12]; [13]; [28]; [29]; [30]; [31]; [32];
      [194; 133]; [194; 160];
      [225; 154; 128];
      [226; 128; 128]; [226; 128; 129]; [226; 128; 130]; [226; 128; 131];
      [226; 128; 132]; [226; 128; 133]; [226; 128; 134]; [226; 128; 135];
      [226; 128; 136]; [226; 128; 137]; [226; 128; 138];
      [226; 128; 168]; [226; 128; 169]; [226; 128; 175];
      [226; 129; 159];
      [227; 128; 128] ]%nat.

(** The string is one white-space character. *)
Definition is_space (s : string) : bool := existsb (String.eqb s) whitespace.

(** A white-space character is one to three bytes long. *)
Fixpoint lstrip (s : string) : string :=
  match s with
  | String c1 s1 =>
      if is_space (String c1 EmptyString) then lstrip s1
      else
        match s1 with
        | String c2 s2 =>
            if is_space (String c1 (String c2 EmptyString)) then lstrip s2
            else
              match s2 with
              | String c3 s3 =>
                  if is_space (String c1 (String c2 (String c3 EmptyString)))
                  then lstrip s3
                  else s
              | EmptyString => s
              end
        | EmptyString => s
        end
  | EmptyString => EmptyString
  end.

(** From the right: what is left of the tail, with the byte before it, is
    dropped when the two make one white-space character. *)
Fixpoint rstrip (s : string) : string :=
  match s with
  | String c s' =>
      let t := rstrip s' in
      if is_space (String c t) then EmptyString else String c t
  | EmptyString => EmptyString
  end.

Definition strip (s : string) : string := rstrip (lstrip s).

Fixpoint has_null (s : string) : bool :=
  match s with
  | String c s' => (nat_of_ascii c =? 0)%nat || has_null s'
  | EmptyString => false
  end.

(** [str.lower()], as far as the check box needs it: the result is only
    compared with "true" and "false", and no character outside ASCII has a
    letter of these two in its lower case. *)
Definition lower_ascii (c : ascii) : ascii :=
  let n := nat_of_ascii c in
  if (65 <=? n)%nat && (n <=? 90)%nat then ascii_of_nat (n + 32) else c.

Fixpoint lower (s : string) : string :=
  match s with
  | String c s' => String (lower_ascii c) (lower s')
  | EmptyString => EmptyString
  end.

Inductive Field : Type :=
| CharField (required : bool)
| BooleanField (required : bool).

(** [field.clean(widget.value_from_datadict(data, files, name))].
    [CharField]: the text or hidden input hands over [data.get(name)];
    [to_python] strips it and maps the empty values to the empty string;
    [validate] raises "required"; the null character validator runs on
    non-empty values.
    [BooleanField]: the checkbox input maps a missing name to [False], the
    strings "true" and "false" to the booleans and the rest to [bool(value)]. *)
Definition field_clean (f : Field) (raw : option string) : Result PyVal :=
  match f with
  | CharField required =>
      let value := match raw with Some s => strip s | None => "" end in
      if String.eqb value "" then
        if required then Raise (ValidationError (FieldErrorMessage "required"))
        else Ok (VStr "")
      else if has_null value then
        Raise (ValidationError (FieldErrorMessage "null_characters_not_allowed"))
      else Ok (VStr value)
  | BooleanField required =>
      let value :=
        match raw with
        | None => false
        | Some s =>
            if String.eqb (lower s) "true" then true
            else if String.eqb (lower s) "false" then false
            else negb (String.eqb s "")
        end in
      if negb value && required then Raise (ValidationError (FieldErrorMessage "required"))
      else Ok (VBool value)
  end.

Definition NON_FIELD_ERRORS : string := "__all__".

(** The attributes [forms.Form] keeps on the form object. *)
Record BaseForm := {
  data : option (gmap string string);       (* None: the form is unbound *)
  initial : gmap string PyVal;
  cleaned_data : gmap string PyVal;
  _errors : option (gmap string (list Message))
}.

Definition BaseForm_init (data : option (gmap string string)) (initial : gmap string PyVal)
  : BaseForm :=
  {| data := data; initial := initial; cleaned_data := ∅; _errors := None |}.

Definition is_bound (f : BaseForm) : bool :=
  match data f with Some _ => true | None => false end.

Definition set_cleaned_data (cd : gmap string PyVal) (f : BaseForm) : BaseForm :=
  {| data := data f; initial := initial f; cleaned_data := cd; _errors := _errors f |}.

Definition set_errors (e : option (gmap string (list Message))) (f : BaseForm) : BaseForm :=
  {| data := data f; initial := initial f; cleaned_data := cleaned_data f; _errors := e |}.

Definition errors_of (f : BaseForm) : gmap string (list Message) :=
  match _errors f with Some e => e | None => ∅ end.

(** [Form.add_error(field, error)]: the message joins the field's list
    ([None] is the non-field list) and the field leaves [cleaned_data]. *)
Definition BaseForm_add_error (field : option string) (m : Message) (f : BaseForm) : BaseForm :=
  let name := match field with Some n => n | None => NON_FIELD_ERRORS end in
  let errs := errors_of f in
  let old := match errs !! name with Some l => l | None => [] end in
  {| data := data f; initial := initial f;
     cleaned_data := delete name (cleaned_data f);
     _errors := Some (<[name := (old ++ [m])%list]> errs) |}.

(** A form object: where the [forms.Form] attributes live in it. *)
Class FormObject (F : Type) := {
  base : F → BaseForm;
  with_base : BaseForm → F → F
}.

(** A form class: the declared fields in order, the [clean_<name>] methods
    (found by [hasattr(self, "clean_%s" % name)]) and [clean]. *)
Class FormClass (S F : Type) := {
  declared_fields : list (string * Field);
  clean_hook : string → option (M (F * S) PyVal);
  form_clean : M (F * S) (gmap string PyVal)
}.

Section FormObject.
Context {S F : Type} `{!FormObject F}.

Definition self_base : M (F * S) BaseForm := gets (λ st, base (fst st)).

Definition update_base (g : BaseForm → BaseForm) : M (F * S) unit :=
  modify (λ st, (with_base (g (base (fst st))) (fst st), snd st)).

Definition self_attr {A} (g : F → A) : M (F * S) A := gets (λ st, g (fst st)).

Definition update_self (g : F → F) : M (F * S) unit :=
  modify (λ st, (g (fst st), snd st)).

Definition on_world {A} (f : S → A * S) : M (F * S) A :=
  λ st, let (a, w) := f (snd st) in (Ok a, (fst st, w)).

(** A call that may raise. *)
Definition on_world_result {A} (f : S → Result A * S) : M (F * S) A :=
  λ st, let (r, w) := f (snd st) in (r, (fst st, w)).

(** [self.cleaned_data[name]] *)
Definition cleaned_data_getitem (name : string) : M (F * S) PyVal :=
  do b <- self_base;
  match cleaned_data b !! name with
  | Some v => ret v
  | None => raise (KeyError name)
  end.

(** [self.cleaned_data.get(name)] *)
Definition cleaned_data_get (name : string) : M (F * S) PyVal :=
  do b <- self_base;
  ret (match cleaned_data b !! name with Some v => v | None => VNone end).

(** [self.cleaned_data[name] = value] *)
Definition cleaned_data_setitem (name : string) (v : PyVal) : M (F * S) unit :=
  update_base (λ b, set_cleaned_data (<[name := v]> (cleaned_data b)) b).

Definition add_error (field : option string) (m : Message) : M (F * S) unit :=
  update_base (BaseForm_add_error field m).

(** [forms.Form.clean]: returns [self.cleaned_data] itself.  The forms
    below bind it to a local name and write through that name; the writes
    are writes to [self.cleaned_data]. *)
Definition Form_clean : M (F * S) (gmap string PyVal) :=
  do b <- self_base; ret (cleaned_data b).
End FormObject.

Section Form.
Context {S F : Type} `{!FormObject F} `{!FormClass S F}.

(** One turn of the loop of [_clean_fields]. *)
Definition clean_one_field (name : string) (field : Field) : M (F * S) unit :=
  do b <- self_base;
  let raw := match data b with Some d => d !! name | None => None end in
  try_except
    (do value <- of_result (field_clean field raw);
     cleaned_data_setitem name value;;
     match clean_hook name with
     | Some hook => do value <- hook; cleaned_data_setitem name value
     | None => ret tt
     end)
    (λ e, match e with
          | ValidationError m => Some (add_error (Some name) m)
          | _ => None
          end).

Fixpoint clean_fields_loop (fields : list (string * Field)) : M (F * S) unit :=
  match fields with
  | [] => ret tt
  | (name, field) :: rest => clean_one_field name field;; clean_fields_loop rest
  end.

Definition _clean_fields : M (F * S) unit := clean_fields_loop declared_fields.

Definition _clean_form : M (F * S) unit :=
  try_except
    (do cd <- form_clean; update_base (set_cleaned_data cd))
    (λ e, match e with
          | ValidationError m => Some (add_error None m)
          | _ => None
          end).

Definition full_clean : M (F * S) unit :=
  update_base (set_errors (Some ∅));;
  do b <- self_base;
  if negb (is_bound b) then ret tt
  else
    update_base (set_cleaned_data ∅);;
    _clean_fields;;
    _clean_form.

(** [form.is_valid()], on a form that has not been cleaned yet. *)
Definition is_valid : M (F * S) bool :=
  full_clean;;
  do b <- self_base;
  ret (is_bound b && bool_decide (errors_of b = ∅)).
End Form.

(** ** The calls into the world *)

Section Calls.
Context {RL B : Type} `{!RateLimit RL} `{!Services B}.

(** [ratelimit.consume(context.request, action=action, key=key)] *)
Definition consume (action key : string) (w : World RL B) : bool * World RL B :=
  let (allowed, r) := ratelimit_consume action key (limiter w) in
  (allowed, record (EvConsume action key allowed) (set_limiter r w)).

(** [ratelimit.clear(context.request, action=action, key=key)] *)
Definition clear (action key : string) (w : World RL B) : unit * World RL B :=
  (tt, record (EvClear action key) (set_limiter (ratelimit_clear action key (limiter w)) w)).

(** [Authenticator.objects.filter(user=user).exclude(type=WEBAUTHN)],
    evaluated when the [for] statement starts. *)
Definition authenticators_excluding_webauthn (user : User) (b : B) : list Authenticator :=
  List.filter (λ a, negb (AuthenticatorType_eqb (authenticator_type a) WEBAUTHN))
    (List.filter (λ a, (authenticator_user a =? pk user)%Z) (authenticator_rows b)).

Definition query_authenticators (user : User) (w : World RL B)
  : list Authenticator * World RL B :=
  (authenticators_excluding_webauthn user (backend w),
   record (EvQueryAuthenticators (pk user)) w).

(** [auth.wrap().validate_code(code)] *)
Definition call_validate_code (auth : Authenticator) (code : PyVal) (w : World RL B)
  : bool * World RL B :=
  let (ok, b) := validate_code auth code (backend w) in
  (ok, record (EvValidateCode auth code ok) (set_backend b w)).

(** [EmailAddress.objects.filter(user=user, verified=False).exists()] *)
Definition has_unverified_email (user : User) (b : B) : bool :=
  existsb (λ e, (email_user e =? pk user)%Z && negb (verified e)) (email_rows b).

Definition query_unverified_email (user : User) (w : World RL B) : bool * World RL B :=
  (has_unverified_email user (backend w), record (EvQueryEmails (pk user)) w).

(** Modelled from the spec: [totp.get_totp_secret(regenerate)], whose
    source is in allauth/mfa/totp.py.  "If regenerate is true or no
    unexpired secret exists for the current enrollment session, generate a
    new cryptographically random secret; otherwise return the existing
    pending secret."  The pending secret is the one kept in the session;
    the expiry of the session is not modelled. *)
Definition get_totp_secret (regenerate : bool) (w : World RL B) : string * World RL B :=
  match (if regenerate then None else session_totp_secret w) with
  | Some secret => (secret, record (EvGetTotpSecret regenerate secret) w)
  | None =>
      let (secret, b) := generate_totp_secret (backend w) in
      (secret,
       record (EvGetTotpSecret regenerate secret)
         (set_session_totp_secret (Some secret) (set_backend b w)))
  end.

(** [totp.validate_totp_code(secret, code)] *)
Definition call_validate_totp_code (secret : string) (code : PyVal) (w : World RL B)
  : bool * World RL B :=
  let ok := validate_totp_code secret code (backend w) in
  (ok, record (EvValidateTotpCode secret code ok) w).

(** [complete_authentication(state, get_credentials(user), credential)] *)
Definition call_complete_authentication (user : User) (state credential : PyVal)
    (w : World RL B) : Result AuthenticatorData * World RL B :=
  let creds := get_credentials user (backend w) in
  let (r, b) := complete_authentication state creds credential (backend w) in
  (r, record (EvCompleteAuthentication state credential) (set_backend b w)).

(** [complete_registration(state, credential)] *)
Definition call_complete_registration (state credential : PyVal)
    (w : World RL B) : Result AuthenticatorData * World RL B :=
  let (r, b) := complete_registration state credential (backend w) in
  (r, record (EvCompleteRegistration state credential) (set_backend b w)).

(** [json.loads(s)]; a value that is not a string is a [TypeError]. *)
Definition loads (v : PyVal) : Result json :=
  match v with
  | VStr s =>
      match json_loads s with
      | Some j => Ok j
      | None => Raise (JSONDecodeError s)
      end
  | _ => Raise TypeError
  end.

(** [Signer().unsign(s)] *)
Definition unsign (v : PyVal) : Result PyVal :=
  match v with
  | VStr s =>
      match signer_unsign s with
      | Some payload => Ok (VStr payload)
      | None => Raise BadSignature
      end
  | _ => Raise TypeError
  end.

(** [Signer().sign(json.dumps(state))] *)
Definition sign_state (state : json) : PyVal := VStr (signer_sign (json_dumps state)).

(** The body both forms give to [clean_signed_state]. *)
Definition clean_signed_state_body {F} `{!FormObject F}
  : M (F * World RL B) PyVal :=
  do signed_state <- cleaned_data_getitem "signed_state";
  try_except
    (do payload <- of_result (unsign signed_state);
     do state <- of_result (loads payload);
     ret (VJson state))
    (λ e, match e with
          | BadSignature => Some (raise (ValidationError TamperedState))
          | _ => None
          end).
End Calls.

(** ** AuthenticateForm *)

Module AuthenticateForm.
Record t := {
  form : BaseForm;
  user : User;
  authenticator : option Authenticator   (* unset until a code matches *)
}.

Definition set_authenticator (a : Authenticator) (self : t) : t :=
  {| form := form self; user := user self; authenticator := Some a |}.

#[global] Instance form_object : FormObject t := {|
  base := form;
  with_base := λ b self,
    {| form := b; user := user self; authenticator := authenticator self |}
|}.

Definition __init__ (u : User) (d : option (gmap string string)) : t :=
  {| form := BaseForm_init d ∅; user := u; authenticator := None |}.

Definition rate_limit_key (u : User) : string := "mfa-auth-user-" +:+ pretty (pk u).

Section Methods.
Context {RL B : Type} `{!RateLimit RL} `{!Services B}.
Local Abbreviation W := (World RL B).

(** The [for] loop of [clean_code]. *)
Fixpoint clean_code_loop (key : string) (code : PyVal) (auths : list Authenticator)
  : M (t * W) PyVal :=
  match auths with
  | [] => raise (ValidationError IncorrectCode)
  | auth :: rest =>
      do ok <- on_world (call_validate_code auth code);
      if ok then
        update_self (set_authenticator auth);;
        on_world (clear "login_failed" key);;
        ret code
      else clean_code_loop key code rest
  end.

Definition clean_code : M (t * W) PyVal :=
  do u <- self_attr user;
  let key := rate_limit_key u in
  do allowed <- on_world (consume "login_failed" key);
  if negb allowed then raise (ValidationError TooManyAttempts)
  else
    do code <- cleaned_data_getitem "code";
    do auths <- on_world (query_authenticators u);
    clean_code_loop key code auths.

#[global] Instance form_class : FormClass W t := {|
  declared_fields := [("code", CharField true)];
  clean_hook := λ name, if String.eqb name "code" then Some clean_code else None;
  form_clean := Form_clean
|}.
End Methods.
End AuthenticateForm.

(** ** AuthenticateWebAuthnForm *)

Module AuthenticateWebAuthnForm.
Record t := {
  form : BaseForm;
  user : User;
  authentication_data : json
}.

#[global] Instance form_object : FormObject t := {|
  base := form;
  with_base := λ b self,
    {| form := b; user := user self; authentication_data := authentication_data self |}
|}.

Section Methods.
Context {RL B : Type} `{!RateLimit RL} `{!Services B}.
Local Abbreviation W := (World RL B).

(** [initial] is the caller's [initial] keyword, [{}] when there is none. *)
Definition __init__ (u : User) (d : option (gmap string string))
    (initial : gmap string PyVal) (w : W) : t * W :=
  let '((authentication_data, state), b) := begin_authentication u (backend w) in
  ({| form := BaseForm_init d (<["signed_state" := sign_state state]> initial);
      user := u;
      authentication_data := authentication_data |},
   set_backend b w).

Definition clean_signed_state : M (t * W) PyVal := clean_signed_state_body.

Definition clean_credential : M (t * W) PyVal :=
  do credential <- cleaned_data_getitem "credential";
  do parsed <- of_result (loads credential);
  do c <- of_result (parse_authentication_credential parsed);
  ret (VAuthenticationCredential c).

Definition clean : M (t * W) (gmap string PyVal) :=
  do _cleaned_data <- Form_clean;
  do state <- cleaned_data_get "signed_state";
  do credential <- cleaned_data_getitem "credential";
  (if all [credential; state] then
     do u <- self_attr user;
     do credential <- cleaned_data_getitem "credential";
     do authenticator_data <-
       on_world_result (call_complete_authentication u state credential);
     cleaned_data_setitem "authenticator_data" (VAuthenticatorData authenticator_data)
   else ret tt);;
  Form_clean.

#[global] Instance form_class : FormClass W t := {|
  declared_fields := [("signed_state", CharField false); ("credential", CharField true)];
  clean_hook := λ name,
    if String.eqb name "signed_state" then Some clean_signed_state
    else if String.eqb name "credential" then Some clean_credential
    else None;
  form_clean := clean
|}.
End Methods.
End AuthenticateWebAuthnForm.

(** ** ActivateTOTPForm *)

Module ActivateTOTPForm.
Record t := {
  form : BaseForm;
  user : User;
  email_verified : bool;
  secret : string
}.

Definition set_secret (s : string) (self : t) : t :=
  {| form := form self; user := user self;
     email_verified := email_verified self; secret := s |}.

#[global] Instance form_object : FormObject t := {|
  base := form;
  with_base := λ b self,
    {| form := b; user := user self;
       email_verified := email_verified self; secret := secret self |}
|}.

Section Methods.
Context {RL B : Type} `{!RateLimit RL} `{!Services B}.
Local Abbreviation W := (World RL B).

Definition __init__ (u : User) (d : option (gmap string string)) (w : W) : t * W :=
  let (unverified, w1) := query_unverified_email u w in
  let b := BaseForm_init d ∅ in
  let (s, w2) := get_totp_secret (negb (is_bound b)) w1 in
  ({| form := b; user := u; email_verified := negb unverified; secret := s |}, w2).

Definition clean_code : M (t * W) PyVal :=
  try_except
    (do code <- cleaned_data_getitem "code";
     do email_verified <- self_attr email_verified;
     if negb email_verified then raise (ValidationError UnverifiedEmail)
     else
       do secret <- self_attr secret;
       do ok <- on_world (call_validate_totp_code secret code);
       if negb ok then raise (ValidationError IncorrectCode)
       else ret code)
    (λ e, match e with
          | ValidationError _ =>
              Some (do s <- on_world (get_totp_secret true);
                    update_self (set_secret s);;
                    raise e)
          | _ => None
          end).

#[global] Instance form_class : FormClass W t := {|
  declared_fields := [("code", CharField true)];
  clean_hook := λ name, if String.eqb name "code" then Some clean_code else None;
  form_clean := Form_clean
|}.
End Methods.
End ActivateTOTPForm.

(** ** DeactivateTOTPForm *)

Module DeactivateTOTPForm.
Record t := {
  form : BaseForm;
  authenticator : Authenticator
}.

#[global] Instance form_object : FormObject t := {|
  base := form;
  with_base := λ b self, {| form := b; authenticator := authenticator self |}
|}.

Definition __init__ (a : Authenticator) (d : option (gmap string string)) : t :=
  {| form := BaseForm_init d ∅; authenticator := a |}.

Section Methods.
Context {RL B : Type} `{!RateLimit RL} `{!Services B}.
Local Abbreviation W := (World RL B).

Definition clean : M (t * W) (gmap string PyVal) :=
  do cleaned_data <- Form_clean;
  do a <- self_attr authenticator;
  do allowed <- gets (λ st, can_delete_authenticator a (backend (snd st)));
  if negb allowed then raise (ValidationError CannotDeleteAuthenticator)
  else ret cleaned_data.

#[global] Instance form_class : FormClass W t := {|
  declared_fields := [];
  clean_hook := λ _, None;
  form_clean := clean
|}.
End Methods.
End DeactivateTOTPForm.

(** ** AddWebAuthnForm *)

Module AddWebAuthnForm.
Record t := {
  form : BaseForm;
  user : User;
  registration_data : json
}.

#[global] Instance form_object : FormObject t := {|
  base := form;
  with_base := λ b self,
    {| form := b; user := user self; registration_data := registration_data self |}
|}.

(** [credential["attestation_object"].auth_data.is_user_verified()] *)
Definition credential_is_user_verified (credential : PyVal) : Result bool :=
  match credential with
  | VRegistrationCredential c => Ok (is_user_verified (auth_data (attestation_object c)))
  | _ => Raise TypeError
  end.

Section Methods.
Context {RL B : Type} `{!RateLimit RL} `{!Services B}.
Local Abbreviation W := (World RL B).

Definition __init__ (u : User) (d : option (gmap string string))
    (initial : gmap string PyVal) (w : W) : t * W :=
  let '((registration_data, state), b) := begin_registration (backend w) in
  ({| form := BaseForm_init d (<["signed_state" := sign_state state]> initial);
      user := u;
      registration_data := registration_data |},
   set_backend b w).

Definition clean_signed_state : M (t * W) PyVal := clean_signed_state_body.

Definition clean_credential : M (t * W) PyVal :=
  do credential <- cleaned_data_getitem "credential";
  do parsed <- of_result (loads credential);
  do c <- of_result (parse_registration_credential parsed);
  ret (VRegistrationCredential c).

Definition clean : M (t * W) (gmap string PyVal) :=
  do _cleaned_data <- Form_clean;
  do state <- cleaned_data_get "signed_state";
  do credential <- cleaned_data_get "credential";
  do passwordless <- cleaned_data_get "passwordless";
  (if truthy credential then
     if truthy passwordless then
       do verified <- of_result (credential_is_user_verified credential);
       if negb verified then add_error None PasswordlessUnsupported
       else ret tt
     else ret tt
   else ret tt);;
  (if all [credential; state] then
     do authenticator_data <-
       on_world_result (call_complete_registration state credential);
     cleaned_data_setitem "authenticator_data" (VAuthenticatorData authenticator_data)
   else ret tt);;
  Form_clean.

#[global] Instance form_class : FormClass W t := {|
  declared_fields :=
    [("name", CharField false); ("passwordless", BooleanField false);
     ("credential", CharField true); ("signed_state", CharField true)];
  clean_hook := λ name,
    if String.eqb name "signed_state" then Some clean_signed_state
    else if String.eqb name "credential" then Some clean_credential
    else None;
  form_clean := clean
|}.
End Methods.
End AddWebAuthnForm.

(** ** A budget rate limiter *)

(** The rate limiter of allauth/core/ratelimit.py is not among the sources;
    the forms above take it as a parameter.  This is the limiter the
    specification describes, within one window: the state maps
    (action, key) to the number of units consumed, and [limit] is the
    budget of a key. *)
Module Budget.
Definition consumed (action key : string) (used : gmap (string * string) nat) : nat :=
  match used !! (action, key) with Some n => n | None => 0 end.

Definition remaining (limit : nat) (action key : string)
    (used : gmap (string * string) nat) : nat :=
  limit - consumed action key used.

(** Modelled from the spec: [ratelimit.consume] of
    allauth/core/ratelimit.py.  "consume(key) -> allowed: bool decrements a
    budget associated with key; returns false once budget is exhausted
    within the current window." *)
Definition consume (limit : nat) (action key : string) (used : gmap (string * string) nat)
  : bool * gmap (string * string) nat :=
  if (consumed action key used <? limit)%nat
  then (true, <[(action, key) := S (consumed action key used)]> used)
  else (false, used).

(** Modelled from the spec: [ratelimit.clear] of
    allauth/core/ratelimit.py.  "clear(key) resets the budget immediately." *)
Definition clear (action key : string) (used : gmap (string * string) nat)
  : gmap (string * string) nat :=
  delete (action, key) used.

Definition rate_limit (limit : nat) : RateLimit (gmap (string * string) nat) :=
  {| ratelimit_consume := consume limit; ratelimit_clear := clear |}.
End Budget.

(** ** A small concrete world

    Executable stand-ins for the collaborators, to run the forms on concrete
    submissions.  A stored authenticator accepts the code equal to its data;
    a pending secret accepts itself; a token is [payload:length]; the
    decoder knows the JSON literals and the unsigned integers. *)
Module Example.
Record Store := {
  authenticators : list Authenticator;
  emails : list EmailAddress;
  secrets_issued : nat
}.

Definition code_is (expected : string) (code : PyVal) : bool :=
  match code with
  | VStr s => String.eqb s expected
  | _ => false
  end.

Definition generate (b : Store) : string * Store :=
  ("secret-" +:+ pretty (secrets_issued b),
   {| authenticators := authenticators b; emails := emails b;
      secrets_issued := S (secrets_issued b) |}).

Definition signature (payload : string) : string := pretty (String.length payload).

(** [s.rsplit(":", 1)], [None] when there is no colon. *)
Fixpoint rsplit_colon (s : string) : option (string * string) :=
  match s with
  | EmptyString => None
  | String c s' =>
      match rsplit_colon s' with
      | Some (value, sig) => Some (String c value, sig)
      | None => if Ascii.eqb c ":"%char then Some (EmptyString, s') else None
      end
  end.

Definition example_unsign (token : string) : option string :=
  match rsplit_colon token with
  | Some (value, sig) => if String.eqb sig (signature value) then Some value else None
  | None => None
  end.

Definition is_digit (c : ascii) : bool :=
  let n := nat_of_ascii c in (48 <=? n)%nat && (n <=? 57)%nat.

Fixpoint digits_value (acc : Z) (s : string) : option Z :=
  match s with
  | EmptyString => Some acc
  | String c s' =>
      if is_digit c
      then digits_value (10 * acc + Z.of_nat (nat_of_ascii c - 48))%Z s'
      else None
  end.

Definition example_loads (s : string) : option json :=
  if String.eqb s "null" then Some JNull
  else if String.eqb s "true" then Some (JBool true)
  else if String.eqb s "false" then Some (JBool false)
  else match s with
       | EmptyString => None
       | String c s' =>
           if String.eqb s "0" then Some (JNum 0)
           else if Ascii.eqb c "0"%char then None
           else JNum <$> digits_value 0 s
       end.

Definition example_dumps (j : json) : string :=
  match j with
  | JNull => "null"
  | JBool true => "true"
  | JBool false => "false"
  | JNum n => pretty n
  | JStr _ => "null"
  | JArr _ => "null"
  | JObj _ => "null"
  end.

(** The stand-in credential parsers read the user-verification flag off
    the decoded boolean. *)
Definition example_parse_registration (j : json) : Result RegistrationCredential :=
  match j with
  | JBool uv =>
      Ok {| attestation_object := {| auth_data := {| is_user_verified := uv |} |};
            client_data := "" |}
  | _ => Raise (Foreign "ValueError")
  end.

Definition example_parse_authentication (j : json) : Result AuthenticationCredential :=
  match j with
  | JBool _ => Ok (MkAuthenticationCredential "")
  | _ => Raise (Foreign "ValueError")
  end.

#[global] Instance services : Services Store := {|
  authenticator_rows := authenticators;
  email_rows := emails;
  validate_code := λ auth code b, (code_is (authenticator_data auth) code, b);
  generate_totp_secret := generate;
  validate_totp_code := λ secret code _, code_is secret code;
  can_delete_authenticator := λ a b,
    (1 <? List.length (List.filter (λ a', (authenticator_user a' =? authenticator_user a)%Z)
                         (authenticators b)))%nat;
  signer_sign := λ payload, payload +:+ ":" +:+ signature payload;
  signer_unsign := example_unsign;
  json_dumps := example_dumps;
  json_loads := example_loads;
  begin_authentication := λ _ b, ((JNull, JNum 7), b);
  begin_registration := λ b, ((JNull, JNum 7), b);
  get_credentials := λ _ _, [];
  parse_authentication_credential := example_parse_authentication;
  parse_registration_credential := example_parse_registration;
  complete_authentication := λ _ _ _ b, (Ok (MkAuthenticatorData ""), b);
  complete_registration := λ _ _ b, (Ok (MkAuthenticatorData ""), b)
|}.

(** Three attempts per key. *)
#[global] Instance rate_limit : RateLimit (gmap (string * string) nat) :=
  Budget.rate_limit 3.

Definition alice : User := {| pk := 1 |}.

Definition alice_totp : Authenticator :=
  {| authenticator_id := 10; authenticator_user := 1;
     authenticator_type := TOTP; authenticator_data := "123456" |}.

Definition alice_key : Authenticator :=
  {| authenticator_id := 11; authenticator_user := 1;
     authenticator_type := WEBAUTHN; authenticator_data := "123456" |}.

Definition bob_totp : Authenticator :=
  {| authenticator_id := 12; authenticator_user := 2;
     authenticator_type := TOTP; authenticator_data := "654321" |}.

Definition store : Store :=
  {| authenticators := [alice_key; bob_totp; alice_totp];
     emails := [ {| email_user := 1; email := "alice@example.org";
                    verified := true; primary := true |};
                 {| email_user := 2; email := "bob@example.org";
                    verified := false; primary := true |} ];
     secrets_issued := 0 |}.

Definition bob : User := {| pk := 2 |}.

Definition world : World (gmap (string * string) nat) Store :=
  {| limiter := ∅; backend := store; session_totp_secret := None; log := [] |}.

End Example.

(** ** Vocabulary of the statements *)

(** The log entries of authenticators that were tried and did not accept. *)
Definition rejected (code : PyVal) (auths : list Authenticator) : list Event :=
  List.map (λ a, EvValidateCode a code false) auths.

Section Rejections.
Context {B : Type} `{!Services B}.

(** Every authenticator of the list, asked in turn, refuses the code. *)
Fixpoint all_refuse (code : PyVal) (auths : list Authenticator) (b : B) : bool :=
  match auths with
  | [] => true
  | a :: rest =>
      negb (fst (validate_code a code b)) && all_refuse code rest (snd (validate_code a code b))
  end.

(** The backend after the authenticators of the list have been asked. *)
Fixpoint after_asking (code : PyVal) (auths : list Authenticator) (b : B) : B :=
  match auths with
  | [] => b
  | a :: rest => after_asking code rest (snd (validate_code a code b))
  end.
End Rejections.

Definition is_clear (e : Event) : bool :=
  match e with EvClear _ _ => true | _ => false end.


Definition is_validate_totp_code (e : Event) : bool :=
  match e with EvValidateTotpCode _ _ _ => true | _ => false end.

(** [form.non_field_errors()] *)
Definition non_field_errors (f : BaseForm) : list Message :=
  match errors_of f !! NON_FIELD_ERRORS with Some l => l | None => [] end.

(** The form as [_clean_fields] hands it to [clean_<name>]: the field's own
    cleaned value is already in [cleaned_data]. *)
Definition having_cleaned {F} `{!FormObject F} (name : string) (v : PyVal) (self : F) : F :=
  with_base (set_cleaned_data (<[name := v]> (cleaned_data (base self))) (base self)) self.

(** ** Concrete submissions in the small world *)

Module Scenario.
Import Example.

Definition W : Type := World (gmap (string * string) nat) Store.

(** Alice has used up her three attempts. *)
Definition locked_out : W :=
  {| limiter := {[ ("login_failed", "mfa-auth-user-1") := 3 ]};
     backend := store; session_totp_secret := None; log := [] |}.

(** Alice's login form, the code field cleaned. *)
Definition login (code : string) : AuthenticateForm.t :=
  having_cleaned "code" (VStr code)
    (AuthenticateForm.__init__ alice (Some {[ "code" := code ]})).


(** A WebAuthn authentication form bound to a submission. *)
Definition assertion (d : gmap string string) : AuthenticateWebAuthnForm.t * W :=
  AuthenticateWebAuthnForm.__init__ alice (Some d) ∅ world.

(** A token whose signature verifies and whose payload is not JSON. *)
Definition signed_not_json : string := signer_sign (B := Store) "oops".

Definition unverified_credential : RegistrationCredential :=
  {| attestation_object := {| auth_data := {| is_user_verified := false |} |};
     client_data := "" |}.

(** A registration form whose fields are cleaned: passwordless asked for,
    the credential parsed, the state decoded. *)
Definition registration : AddWebAuthnForm.t :=
  having_cleaned "signed_state" (VJson (JNum 7))
    (having_cleaned "credential" (VRegistrationCredential unverified_credential)
       (having_cleaned "passwordless" (VBool true)
          (fst (AddWebAuthnForm.__init__ alice (Some ∅) ∅ world)))).

(** Alice submits one code after the other, each time on a new login form;
    the errors of the code field are collected. *)
Fixpoint logins (codes : list string) (w : W) : list (list Message) * W :=
  match codes with
  | [] => ([], w)
  | code :: rest =>
      let out :=
        full_clean (AuthenticateForm.__init__ alice (Some {[ "code" := code ]}), w) in
      let errors :=
        match errors_of (AuthenticateForm.form (fst (snd out))) !! "code" with
        | Some l => l
        | None => []
        end in
      let (more, w') := logins rest (snd (snd out)) in
      (errors :: more, w')
  end.

(** A registration submission: passwordless ticked, a credential whose
    user-verification flag is off, a state token that verifies. *)
Definition passwordless_submission : gmap string string :=
  {[ "passwordless" := "on"; "credential" := "false"; "signed_state" := "7:1" ]}.
End Scenario.

(** ** Beyond the validation methods *)

(** [allauth.mfa.utils.post_authentication], over the state of the
    backend: what it does with the request and the authenticator, and
    whether it raises, is its own business. *)
Class PostAuthentication (B : Type) := {
  post_authentication : Authenticator → B → Result unit * B
}.

(** [AuthenticateForm.save]: [self.authenticator] is an attribute only
    after [clean_code] has set it; reading it before is an
    [AttributeError]. *)
Definition AuthenticateForm_save {RL B : Type} `{!PostAuthentication B}
  : M (AuthenticateForm.t * World RL B) unit :=
  do a <- self_attr AuthenticateForm.authenticator;
  match a with
  | None => raise (Foreign "AttributeError")
  | Some auth =>
      on_world_result (λ w,
        let (r, b) := post_authentication auth (backend w) in (r, set_backend b w))
  end.

(** The form object as [full_clean] leaves it before the fields are
    cleaned: no errors, nothing cleaned. *)
Definition reset_for_cleaning {F} `{!FormObject F} (self : F) : F :=
  with_base (set_cleaned_data ∅ (set_errors (Some ∅) (base self))) self.

(** Writing the [forms.Form] attributes and reading them back. *)
Definition lawful_form (F : Type) `{!FormObject F} : Prop :=
  (∀ (b : BaseForm) (f : F), base (with_base b f) = b) ∧
  (∀ (b1 b2 : BaseForm) (f : F), with_base b2 (with_base b1 f) = with_base b2 f).

(** The errors recorded for a field. *)
Definition field_errors (name : string) (f : BaseForm) : list Message :=
  match errors_of f !! name with Some l => l | None => [] end.

(** What a text or hidden input field makes of a submission: the stripped
    value, the empty string when the name is missing. *)
Definition submitted (d : gmap string string) (name : string) : string :=
  match d !! name with Some s => strip s | None => "" end.

(** ** More concrete submissions *)

Module Walkthrough.
Import Example.

(** A store in which Alice has her WebAuthn key and nothing else. *)
Definition keys_only : Scenario.W :=
  {| limiter := ∅;
     backend := {| authenticators := [alice_key; bob_totp]; emails := emails store;
                   secrets_issued := 0 |};
     session_totp_secret := None; log := [] |}.

(** A login submission whose code is white space. *)
Definition blank_login : gmap string string := {[ "code" := "   " ]}.

(** Alice's enrollment form, bound to a submission, her email verified and
    the secret "pending" shown to her. *)
Definition enrollment_form (d : gmap string string) : ActivateTOTPForm.t :=
  {| ActivateTOTPForm.form := BaseForm_init (Some d) ∅;
     ActivateTOTPForm.user := alice;
     ActivateTOTPForm.email_verified := true;
     ActivateTOTPForm.secret := "pending" |}.

(** The code the stand-in validator accepts for that secret, with white
    space around it. *)
Definition good_enrollment : gmap string string := {[ "code" := " pending " ]}.

(** An authentication submission: a token that verifies and decodes to 7, a
    credential that parses. *)
Definition good_assertion : gmap string string :=
  {[ "signed_state" := "7:1"; "credential" := "true" ]}.

(** The same with a credential that is not JSON. *)
Definition malformed_assertion : gmap string string :=
  {[ "signed_state" := "7:1"; "credential" := "oops" ]}.

(** A registration submission, passwordless not ticked. *)
Definition good_registration : gmap string string :=
  {[ "name" := "my key"; "signed_state" := "7:1"; "credential" := "true" ]}.

Definition parsed_credential : RegistrationCredential :=
  {| attestation_object := {| auth_data := {| is_user_verified := true |} |};
     client_data := "" |}.
End Walkthrough.

(** * Properties *)

Ltac run :=
  unfold cleaned_data_getitem, cleaned_data_get, cleaned_data_setitem, add_error,
    Form_clean in *;
  unfold self_attr, self_base, update_self, update_base, on_world, on_world_result in *;
  unfold bind, ret, raise, gets, modify, try_except, of_result in *;
  cbn [fst snd] in *.

(** ** White space *)

(** A no-break space, an em space, an ideographic space around a value go
    as the tab and the space do; a zero-width space is not white space. *)
Example strip_takes_unicode_white_space :
  strip (utf8 [194; 160] +:+ " 7:1" +:+ utf8 [9; 226; 128; 131; 227; 128; 128]) = "7:1" ∧
  strip (utf8 [194; 133; 32; 225; 154; 128]) = "" ∧
  strip (utf8 [226; 128; 139] +:+ "7:1 ") = utf8 [226; 128; 139] +:+ "7:1".
Proof. vm_compute. repeat split; reflexivity. Qed.

(** ** The budget limiter meets its contract *)

Lemma Budget_consume_allowed limit action key used :
  fst (Budget.consume limit action key used) = true →
  S (Budget.remaining limit action key (snd (Budget.consume limit action key used)))
  = Budget.remaining limit action key used.
Proof.
  unfold Budget.consume, Budget.remaining.
  destruct (Nat.ltb_spec (Budget.consumed action key used) limit) as [Hlt|Hge]; [|done].
  intros _. cbn. unfold Budget.consumed at 1. rewrite lookup_insert_eq. lia.
Qed.

Lemma Budget_consume_denied limit action key used :
  fst (Budget.consume limit action key used) = false ↔
  Budget.remaining limit action key used = 0.
Proof.
  unfold Budget.consume, Budget.remaining.
  destruct (Nat.ltb_spec (Budget.consumed action key used) limit); cbn; split; (done || lia).
Qed.

Lemma Budget_clear_resets limit action key used :
  Budget.remaining limit action key (Budget.clear action key used) = limit.
Proof.
  unfold Budget.remaining, Budget.consumed, Budget.clear. rewrite lookup_delete_eq. lia.
Qed.

Lemma existsb_rejected (p : Event → bool) (code : PyVal) (auths : list Authenticator) :
  (∀ a, p (EvValidateCode a code false) = false) →
  existsb p (rejected code auths) = false.
Proof.
  intros Hp. unfold rejected. induction auths as [|a rest IH]; cbn; [done|].
  by rewrite Hp, IH.
Qed.

(** ** AuthenticateForm *)

Section AuthenticateFormProperties.
Context {RL B : Type} `{!RateLimit RL} `{!Services B}.
Import AuthenticateForm.

(** The key names the account and nothing else. *)
Lemma rate_limit_key_inj (u1 u2 : User) :
  rate_limit_key u1 = rate_limit_key u2 → u1 = u2.
Proof.
  unfold rate_limit_key. intros Heq.
  apply (inj (String.append "mfa-auth-user-")) in Heq.
  apply (inj pretty) in Heq. destruct u1, u2. cbn in Heq. by subst.
Qed.

(** The candidates of the loop are the user's rows that are not WebAuthn
    keys, in the order of the rows. *)
Lemma authenticators_excluding_webauthn_spec (u : User) (b : B) (a : Authenticator) :
  In a (authenticators_excluding_webauthn u b) ↔
  In a (authenticator_rows b) ∧ authenticator_user a = pk u ∧ authenticator_type a ≠ WEBAUTHN.
Proof.
  unfold authenticators_excluding_webauthn. rewrite !filter_In, Z.eqb_eq.
  destruct (authenticator_type a); cbn; intuition congruence.
Qed.

(** What the loop does: it stops at the first authenticator that accepts,
    keeps it, clears the limiter and returns the code; when none accepts
    it raises the incorrect-code error and leaves form and limiter alone. *)
Lemma clean_code_loop_outcome key code auths (self : t) (w : World RL B) :
  match clean_code_loop key code auths (self, w) with
  | (Ok v, (self', w')) =>
      v = code ∧
      ∃ pre a post,
        auths = (pre ++ a :: post)%list ∧
        all_refuse code pre (backend w) = true ∧
        fst (validate_code a code (after_asking code pre (backend w))) = true ∧
        backend w' = snd (validate_code a code (after_asking code pre (backend w))) ∧
        self' = set_authenticator a self ∧
        limiter w' = ratelimit_clear "login_failed" key (limiter w) ∧
        session_totp_secret w' = session_totp_secret w ∧
        log w' = (log w ++ rejected code pre
                    ++ [EvValidateCode a code true; EvClear "login_failed" key])%list
  | (Raise e, (self', w')) =>
      e = ValidationError IncorrectCode ∧ self' = self ∧
      all_refuse code auths (backend w) = true ∧
      backend w' = after_asking code auths (backend w) ∧
      limiter w' = limiter w ∧
      session_totp_secret w' = session_totp_secret w ∧
      log w' = (log w ++ rejected code auths)%list
  end.
Proof.
  revert w. induction auths as [|a rest IH]; intros w.
  - cbn. run. rewrite app_nil_r. done.
  - cbn [clean_code_loop all_refuse after_asking]. run. unfold call_validate_code.
    destruct (validate_code a code (backend w)) as [ok b] eqn:Hv.
    destruct ok.
    + cbn. split; [done|]. exists [], a, rest. cbn. rewrite Hv, <- app_assoc. done.
    + specialize (IH (record (EvValidateCode a code false) (set_backend b w))).
      destruct (clean_code_loop key code rest _) as [[v|e] [self' w']].
      * destruct IH as (-> & pre & a' & post & -> & Hpre & Hacc & Hb & -> & Hl & Hs & Hlog).
        split; [done|]. exists (a :: pre), a', post. cbn in *.
        rewrite Hv. cbn. rewrite Hlog, <- app_assoc. done.
      * destruct IH as (-> & -> & Hall & Hb & Hl & Hs & Hlog). cbn in *.
        rewrite Hlog, <- app_assoc. done.
Qed.

(** C1.  Every run of [AuthenticateForm.clean_code] starts by consuming
    the rate limiter under the action "login_failed" and the key of the
    user.  When the limiter denies, the run ends there with the
    too-many-attempts error, which is not the incorrect-code error: the
    form is as it was, the store was not queried and no authenticator
    was asked to validate the code.  The key is made of the user's primary
    key, "mfa-auth-user-" followed by its decimal digits, and no other
    user has it. *)
Theorem rate_limit_consumed_first (self : t) (w : World RL B) :
  let key := rate_limit_key (user self) in
  let allowed := fst (ratelimit_consume "login_failed" key (limiter w)) in
  let out := clean_code (self, w) in
  (∃ rest, log (snd (snd out))
           = (log w ++ EvConsume "login_failed" key allowed :: rest)%list) ∧
  (allowed = false →
     fst out = Raise (ValidationError TooManyAttempts) ∧
     fst (snd out) = self ∧
     backend (snd (snd out)) = backend w ∧
     log (snd (snd out)) = (log w ++ [EvConsume "login_failed" key false])%list) ∧
  TooManyAttempts ≠ IncorrectCode ∧
  key = "mfa-auth-user-" +:+ pretty (pk (user self)) ∧
  (∀ other : User, rate_limit_key other = key → other = user self).
Proof.
  cbn zeta.
  assert (∀ other : User, rate_limit_key other = rate_limit_key (user self) →
                          other = user self) as Hkey
    by (intros other; apply rate_limit_key_inj).
  unfold clean_code. run. unfold consume.
  destruct (ratelimit_consume _ _ (limiter w)) as [allowed r]. cbn.
  split; [|split; [|done]].
  - destruct allowed; cbn; [|by eexists].
    destruct (cleaned_data (form self) !! "code") as [code|]; cbn; [|by eexists].
    unfold query_authenticators. cbn.
    match goal with |- context [clean_code_loop ?k ?c ?l (?s, ?w0)] =>
      pose proof (clean_code_loop_outcome k c l s w0) as Hloop;
      destruct (clean_code_loop k c l (s, w0)) as [[v|e] [self' w']] end; cbn in *.
    + destruct Hloop as (_ & pre & a & post & _ & _ & _ & _ & _ & _ & _ & ->).
      rewrite <- !app_assoc. cbn. by eexists.
    + destruct Hloop as (_ & _ & _ & _ & _ & _ & ->).
      rewrite <- !app_assoc. cbn. by eexists.
  - intros ->. cbn. done.
Qed.

(** C2.  When the limiter allows the attempt, the candidates are the
    user's stored authenticators that are not WebAuthn keys; the code
    succeeds with the first candidate whose [validate_code] accepts it
    (the ones before it were asked and refused), that authenticator is
    kept on the form and the limiter is cleared for the user's key; when
    no candidate accepts, the incorrect-code error is raised. *)
Theorem first_matching_authenticator_wins (self : t) (w : World RL B) (code : PyVal) :
  let key := rate_limit_key (user self) in
  let candidates := authenticators_excluding_webauthn (user self) (backend w) in
  let out := clean_code (self, w) in
  fst (ratelimit_consume "login_failed" key (limiter w)) = true →
  cleaned_data (form self) !! "code" = Some code →
  (∀ a, In a candidates ↔
        In a (authenticator_rows (backend w)) ∧ authenticator_user a = pk (user self)
        ∧ authenticator_type a ≠ WEBAUTHN) ∧
  match fst out with
  | Ok v =>
      v = code ∧
      ∃ pre a post,
        candidates = (pre ++ a :: post)%list ∧
        all_refuse code pre (backend w) = true ∧
        fst (validate_code a code (after_asking code pre (backend w))) = true ∧
        authenticator (fst (snd out)) = Some a ∧
        limiter (snd (snd out))
        = ratelimit_clear "login_failed" key
            (snd (ratelimit_consume "login_failed" key (limiter w))) ∧
        log (snd (snd out))
        = (log w ++ [EvConsume "login_failed" key true; EvQueryAuthenticators (pk (user self))]
             ++ rejected code pre
             ++ [EvValidateCode a code true; EvClear "login_failed" key])%list
  | Raise e =>
      e = ValidationError IncorrectCode ∧
      all_refuse code candidates (backend w) = true ∧
      authenticator (fst (snd out)) = authenticator self ∧
      log (snd (snd out))
      = (log w ++ [EvConsume "login_failed" key true; EvQueryAuthenticators (pk (user self))]
           ++ rejected code candidates)%list
  end.
Proof.
  cbn zeta. intros Hallowed Hcode.
  split; [intros a; apply authenticators_excluding_webauthn_spec|].
  unfold clean_code. run. unfold consume.
  destruct (ratelimit_consume _ _ (limiter w)) as [allowed r]. cbn in Hallowed. subst allowed.
  cbn. rewrite Hcode. cbn. unfold query_authenticators. cbn.
  match goal with |- context [clean_code_loop ?k ?c ?l (?s, ?w0)] =>
    pose proof (clean_code_loop_outcome k c l s w0) as Hloop;
    destruct (clean_code_loop k c l (s, w0)) as [[v|e] [self' w']] end; cbn in *.
  - destruct Hloop as (-> & pre & a & post & Hc & Hpre & Hacc & _ & -> & Hl & _ & Hlog).
    split; [done|]. exists pre, a, post. rewrite Hlog, <- !app_assoc. done.
  - destruct Hloop as (-> & -> & Hall & _ & _ & _ & Hlog).
    rewrite Hlog, <- !app_assoc. done.
Qed.

(** An attempt that ends with the incorrect-code error: the limiter
    allowed it, is left in the state the consumption produced, and no
    clear is among the calls made. *)
Lemma incorrect_code_outcome (self : t) (w : World RL B) :
  let key := rate_limit_key (user self) in
  let out := clean_code (self, w) in
  fst out = Raise (ValidationError IncorrectCode) →
  fst (ratelimit_consume "login_failed" key (limiter w)) = true ∧
  limiter (snd (snd out)) = snd (ratelimit_consume "login_failed" key (limiter w)) ∧
  ∃ new, log (snd (snd out)) = (log w ++ new)%list ∧ existsb is_clear new = false.
Proof.
  cbn zeta. unfold clean_code. run. unfold consume.
  destruct (ratelimit_consume _ _ (limiter w)) as [allowed r]. cbn.
  destruct allowed; cbn; [|discriminate].
  destruct (cleaned_data (form self) !! "code") as [code|]; cbn; [|discriminate].
  unfold query_authenticators. cbn.
  match goal with |- context [clean_code_loop ?k ?c ?l (?s, ?w0)] =>
    pose proof (clean_code_loop_outcome k c l s w0) as Hloop;
    destruct (clean_code_loop k c l (s, w0)) as [[v|e] [self' w']] end; cbn in *.
  - discriminate.
  - intros _. destruct Hloop as (_ & _ & _ & _ & Hl & _ & Hlog).
    split; [done|]. split; [done|].
    eexists. split; [rewrite Hlog, <- !app_assoc; reflexivity|].
    cbn. by apply existsb_rejected.
Qed.

(** A clear in the log of a run means the run succeeded. *)
Lemma clear_only_on_success (self : t) (w : World RL B) (new : list Event) :
  let out := clean_code (self, w) in
  log (snd (snd out)) = (log w ++ new)%list →
  existsb is_clear new = true →
  ∃ v, fst out = Ok v.
Proof.
  cbn zeta. unfold clean_code. run. unfold consume.
  destruct (ratelimit_consume _ _ (limiter w)) as [allowed r]. cbn.
  destruct allowed; cbn.
  2: { intros Hlog%app_inv_head. subst new. cbn. discriminate. }
  destruct (cleaned_data (form self) !! "code") as [code|]; cbn.
  2: { intros Hlog%app_inv_head. subst new. cbn. discriminate. }
  unfold query_authenticators. cbn.
  match goal with |- context [clean_code_loop ?k ?c ?l (?s, ?w0)] =>
    pose proof (clean_code_loop_outcome k c l s w0) as Hloop;
    destruct (clean_code_loop k c l (s, w0)) as [[v|e] [self' w']] end; cbn in *.
  - by eexists.
  - destruct Hloop as (_ & _ & _ & _ & _ & _ & Hlog). rewrite Hlog, <- !app_assoc.
    intros Heq%app_inv_head. subst new. cbn.
    by rewrite existsb_rejected.
Qed.

(** C8.  After an attempt that ends with the incorrect-code error the
    limiter is in the state [ratelimit.consume] left it in: the unit it
    took is not given back, and no clear is among the calls of the run.
    [ratelimit.clear] belongs to the success path only: a run with a
    clear in its log succeeded. *)
Theorem failed_attempt_is_not_refunded (self : t) (w : World RL B) :
  let key := rate_limit_key (user self) in
  let out := clean_code (self, w) in
  fst out = Raise (ValidationError IncorrectCode) →
  (fst (ratelimit_consume "login_failed" key (limiter w)) = true ∧
   limiter (snd (snd out)) = snd (ratelimit_consume "login_failed" key (limiter w)) ∧
   ∃ new, log (snd (snd out)) = (log w ++ new)%list ∧ existsb is_clear new = false) ∧
  (∀ (self2 : t) (w2 : World RL B) (new : list Event),
     log (snd (snd (clean_code (self2, w2)))) = (log w2 ++ new)%list →
     existsb is_clear new = true →
     ∃ v, fst (clean_code (self2, w2)) = Ok v).
Proof.
  cbn zeta. intros Hfail. split.
  - by apply incorrect_code_outcome.
  - intros self2 w2 new. apply clear_only_on_success.
Qed.

End AuthenticateFormProperties.

(** ** ActivateTOTPForm *)

Section ActivateTOTPFormProperties.
Context {RL B : Type} `{!RateLimit RL} `{!Services B}.
Import ActivateTOTPForm.


(** What [__init__] leaves on the form. *)
Lemma init_email_verified (u : User) (d : option (gmap string string)) (w : World RL B) :
  email_verified (fst (__init__ u d w)) = negb (has_unverified_email u (backend w)) ∧
  user (fst (__init__ u d w)) = u ∧
  form (fst (__init__ u d w)) = BaseForm_init d ∅.
Proof.
  unfold __init__, query_unverified_email.
  destruct (get_totp_secret _ _) as [s w2]. done.
Qed.

(** [get_totp_secret(regenerate=True)] draws a new secret and leaves it
    in the session. *)
Lemma get_totp_secret_regenerate (w : World RL B) :
  get_totp_secret true w
  = (fst (generate_totp_secret (backend w)),
     record (EvGetTotpSecret true (fst (generate_totp_secret (backend w))))
       (set_session_totp_secret (Some (fst (generate_totp_secret (backend w))))
          (set_backend (snd (generate_totp_secret (backend w))) w))).
Proof. unfold get_totp_secret. by destruct (generate_totp_secret (backend w)). Qed.

(** The three ways through [clean_code], once the field has handed over
    its value. *)
Lemma clean_code_outcome (self : t) (w : World RL B) (code : PyVal) :
  cleaned_data (form self) !! "code" = Some code →
  clean_code (self, w) =
    if email_verified self then
      if validate_totp_code (secret self) code (backend w) then
        (Ok code, (self, record (EvValidateTotpCode (secret self) code true) w))
      else
        let w1 := record (EvValidateTotpCode (secret self) code false) w in
        (Raise (ValidationError IncorrectCode),
         (set_secret (fst (get_totp_secret true w1)) self, snd (get_totp_secret true w1)))
    else
      (Raise (ValidationError UnverifiedEmail),
       (set_secret (fst (get_totp_secret true w)) self, snd (get_totp_secret true w))).
Proof.
  intros Hcode. unfold clean_code. run. cbn [base form_object]. rewrite Hcode.
  unfold call_validate_totp_code, get_totp_secret. cbn.
  destruct (email_verified self); cbn.
  - destruct (validate_totp_code (secret self) code (backend w)); cbn; [done|].
    by destruct (generate_totp_secret (backend w)).
  - by destruct (generate_totp_secret (backend w)).
Qed.



(** C10.  For a user with an unverified email address the run stops at
    the email check: it fails with the unverified-email error, the only
    call it makes is the one that draws a new secret, so the code is
    never compared against the secret, and the new secret is on the form
    and in the session. *)
Theorem unverified_email_stops_before_code_check
    (u : User) (d : option (gmap string string)) (w : World RL B) (code : PyVal) :
  let self := having_cleaned "code" code (fst (__init__ u d w)) in
  let w1 := snd (__init__ u d w) in
  let out := clean_code (self, w1) in
  let fresh := fst (generate_totp_secret (backend w1)) in
  has_unverified_email u (backend w) = true →
  fst out = Raise (ValidationError UnverifiedEmail) ∧
  log (snd (snd out)) = (log w1 ++ [EvGetTotpSecret true fresh])%list ∧
  existsb is_validate_totp_code [EvGetTotpSecret true fresh] = false ∧
  secret (fst (snd out)) = fresh ∧
  session_totp_secret (snd (snd out)) = Some fresh.
Proof.
  cbn zeta. intros Hun.
  destruct (init_email_verified u d w) as (Hev & Hu & Hf).
  destruct (__init__ u d w) as [f0 w1] eqn:Hinit. cbn [fst snd] in *.
  rewrite (clean_code_outcome _ _ code); [|cbn; by rewrite lookup_insert_eq].
  cbn [having_cleaned with_base form_object email_verified secret].
  rewrite Hev, Hun. cbn [negb]. rewrite get_totp_secret_regenerate. done.
Qed.
End ActivateTOTPFormProperties.

(** ** DeactivateTOTPForm *)

Section DeactivateTOTPFormProperties.
Context {RL B : Type} `{!RateLimit RL} `{!Services B}.
Import DeactivateTOTPForm.

(** Deactivation is a matter of the adapter's rule alone: the form is
    cleaned with the cannot-delete error among the non-field errors, or
    with no error at all. *)
Lemma deactivation_follows_adapter (a : Authenticator) (d : gmap string string)
    (w : World RL B) :
  let out := full_clean (__init__ a (Some d), w) in
  fst out = Ok tt ∧ snd (snd out) = w ∧
  errors_of (form (fst (snd out)))
  = if can_delete_authenticator a (backend w) then ∅
    else {[ NON_FIELD_ERRORS := [CannotDeleteAuthenticator] ]}.
Proof.
  cbn zeta. unfold full_clean, _clean_fields, _clean_form.
  cbn [declared_fields form_class clean_fields_loop form_clean]. unfold clean. run.
  cbn [base with_base form_object form is_bound data BaseForm_init set_errors negb].
  cbn.
  destruct (can_delete_authenticator a (backend w)); cbn; [done|].
  split; [done|]. split; [done|]. unfold errors_of. cbn. by rewrite insert_empty.
Qed.
End DeactivateTOTPFormProperties.

(** ** The signed state of the WebAuthn forms *)

Section SignedStateProperties.
Context {RL B : Type} `{!RateLimit RL} `{!Services B}.

(** The three ways through [clean_signed_state], for any form class. *)
Lemma clean_signed_state_body_outcome {F} `{!FormObject F}
    (self : F) (w : World RL B) (token : string) :
  cleaned_data (base self) !! "signed_state" = Some (VStr token) →
  clean_signed_state_body (self, w) =
    (match signer_unsign token with
     | None => Raise (ValidationError TamperedState)
     | Some payload =>
         match json_loads payload with
         | Some state => Ok (VJson state)
         | None => Raise (JSONDecodeError payload)
         end
     end, (self, w)).
Proof.
  intros Htoken. unfold clean_signed_state_body. run. rewrite Htoken. cbn.
  destruct (signer_unsign token) as [payload|]; cbn; [|done].
  by destruct (json_loads payload).
Qed.

(** C3, as the code has it.  In both WebAuthn forms [clean_signed_state]
    fails with the tampered-form error exactly when the signature of the
    token does not verify, and then nothing else happens.  When the
    signature verifies, the payload goes to [json.loads]: the decoded
    state is returned, or the decoder's own error leaves the method, for
    [except BadSignature] does not take it. *)
Theorem tampered_state_iff_bad_signature
    (auth : AuthenticateWebAuthnForm.t) (add : AddWebAuthnForm.t)
    (w : World RL B) (token : string) :
  let out1 :=
    AuthenticateWebAuthnForm.clean_signed_state
      (having_cleaned "signed_state" (VStr token) auth, w) in
  let out2 :=
    AddWebAuthnForm.clean_signed_state
      (having_cleaned "signed_state" (VStr token) add, w) in
  let verdict :=
    match signer_unsign token with
    | None => Raise (ValidationError TamperedState)
    | Some payload =>
        match json_loads payload with
        | Some state => Ok (VJson state)
        | None => Raise (JSONDecodeError payload)
        end
    end in
  (fst out1 = Raise (ValidationError TamperedState) ↔ signer_unsign token = None) ∧
  (fst out2 = Raise (ValidationError TamperedState) ↔ signer_unsign token = None) ∧
  out1 = (verdict, (having_cleaned "signed_state" (VStr token) auth, w)) ∧
  out2 = (verdict, (having_cleaned "signed_state" (VStr token) add, w)).
Proof.
  cbn zeta.
  unfold AuthenticateWebAuthnForm.clean_signed_state, AddWebAuthnForm.clean_signed_state.
  rewrite !(clean_signed_state_body_outcome _ _ token)
    by (cbn; by rewrite lookup_insert_eq).
  cbn [fst].
  destruct (signer_unsign token) as [payload|]; [|done].
  destruct (json_loads payload); repeat split; intros; discriminate.
Qed.

(** For any signer that gives back what it signed: the token of a payload
    that is not JSON verifies, and the decoder's error is what leaves
    [clean_signed_state]. *)
Lemma signed_undecodable_payload_escapes {F} `{!FormObject F}
    (self : F) (w : World RL B) (payload : string) :
  signer_unsign (signer_sign payload) = Some payload →
  json_loads payload = None →
  cleaned_data (base self) !! "signed_state" = Some (VStr (signer_sign payload)) →
  clean_signed_state_body (self, w) = (Raise (JSONDecodeError payload), (self, w)).
Proof.
  intros Hround Hjson Htoken.
  rewrite (clean_signed_state_body_outcome self w _ Htoken).
  by rewrite Hround, Hjson.
Qed.
End SignedStateProperties.

(** ** AddWebAuthnForm *)

Section AddWebAuthnFormProperties.
Context {RL B : Type} `{!RateLimit RL} `{!Services B}.
Import AddWebAuthnForm.

(** The non-field errors after one more has been added. *)
Lemma non_field_errors_add_error (m : Message) (f : BaseForm) :
  non_field_errors (BaseForm_add_error None m f) = (non_field_errors f ++ [m])%list.
Proof.
  unfold non_field_errors, BaseForm_add_error, errors_of. cbn.
  by rewrite lookup_insert_eq.
Qed.

(** [clean] on a credential whose user-verification flag is off, when
    passwordless operation was asked for. *)
Lemma clean_passwordless_unverified (self : t) (w : World RL B) (c : RegistrationCredential) :
  cleaned_data (form self) !! "credential" = Some (VRegistrationCredential c) →
  cleaned_data (form self) !! "passwordless" = Some (VBool true) →
  is_user_verified (auth_data (attestation_object c)) = false →
  let state :=
    match cleaned_data (form self) !! "signed_state" with Some v => v | None => VNone end in
  let flagged := BaseForm_add_error None PasswordlessUnsupported (form self) in
  clean (self, w) =
    if truthy state then
      match complete_registration state (VRegistrationCredential c) (backend w) with
      | (Ok ad, b) =>
          let cd := <["authenticator_data" := VAuthenticatorData ad]> (cleaned_data flagged) in
          (Ok cd,
           (with_base (set_cleaned_data cd flagged) self,
            record (EvCompleteRegistration state (VRegistrationCredential c))
              (set_backend b w)))
      | (Raise e, b) =>
          (Raise e,
           (with_base flagged self,
            record (EvCompleteRegistration state (VRegistrationCredential c))
              (set_backend b w)))
      end
    else (Ok (cleaned_data flagged), (with_base flagged self, w)).
Proof.
  intros Hc Hp Huv. cbn zeta. unfold clean. run. cbn [base form_object].
  rewrite Hc, Hp. cbn. rewrite Huv. cbn.
  destruct (truthy _); cbn; [|done].
  unfold call_complete_registration. cbn.
  by destruct (complete_registration _ _ _) as [[ad|e] b].
Qed.

(** C5.  When passwordless operation is asked for and the credential
    reports that the user was not verified, [clean] records the
    passwordless-unsupported error among the non-field errors, so the
    form is not valid.  It is recorded whatever the WebAuthn verifier
    says, also when the verifier accepts; and it is not the verifier's
    failure, which is the exception [complete_registration] raises. *)
Theorem passwordless_requires_user_verification
    (self : t) (w : World RL B) (c : RegistrationCredential) :
  let out := clean (self, w) in
  let state :=
    match cleaned_data (form self) !! "signed_state" with Some v => v | None => VNone end in
  cleaned_data (form self) !! "credential" = Some (VRegistrationCredential c) →
  cleaned_data (form self) !! "passwordless" = Some (VBool true) →
  is_user_verified (auth_data (attestation_object c)) = false →
  non_field_errors (form (fst (snd out)))
  = (non_field_errors (form self) ++ [PasswordlessUnsupported])%list ∧
  errors_of (form (fst (snd out))) ≠ ∅ ∧
  (∀ ad, fst (complete_registration state (VRegistrationCredential c) (backend w)) = Ok ad →
         ∃ cd, fst out = Ok cd) ∧
  (∀ e, fst out = Raise e →
        truthy state = true ∧
        fst (complete_registration state (VRegistrationCredential c) (backend w)) = Raise e).
Proof.
  cbn zeta. intros Hc Hp Huv.
  rewrite (clean_passwordless_unverified self w c Hc Hp Huv). cbn zeta.
  assert (∀ f : BaseForm, errors_of (BaseForm_add_error None PasswordlessUnsupported f) ≠ ∅)
    as Hne by (intros f; cbn; apply insert_non_empty).
  destruct (truthy _); cbn.
  - destruct (complete_registration _ _ _) as [[ad|e] b]; cbn.
    + split; [apply non_field_errors_add_error|]. split; [apply Hne|].
      split; [by eexists|discriminate].
    + split; [apply non_field_errors_add_error|]. split; [apply Hne|].
      split; [discriminate|]. by intros ? [= ->].
  - split; [apply non_field_errors_add_error|]. split; [apply Hne|].
    split; [by eexists|discriminate].
Qed.

(** C9.  With a parsed credential and a decoded state at hand, the
    passwordless-unsupported error does not end [clean]:
    [complete_registration] is called all the same, it is the one call
    made, and its verdict is what [clean] returns or raises.  The error
    is on the form in both cases, so it was recorded before the call. *)
Theorem policy_rejection_does_not_stop_registration
    (self : t) (w : World RL B) (c : RegistrationCredential) (state : PyVal) :
  let out := clean (self, w) in
  let verdict := complete_registration state (VRegistrationCredential c) (backend w) in
  cleaned_data (form self) !! "credential" = Some (VRegistrationCredential c) →
  cleaned_data (form self) !! "passwordless" = Some (VBool true) →
  is_user_verified (auth_data (attestation_object c)) = false →
  cleaned_data (form self) !! "signed_state" = Some state →
  truthy state = true →
  log (snd (snd out))
  = (log w ++ [EvCompleteRegistration state (VRegistrationCredential c)])%list ∧
  backend (snd (snd out)) = snd verdict ∧
  non_field_errors (form (fst (snd out)))
  = (non_field_errors (form self) ++ [PasswordlessUnsupported])%list ∧
  match fst verdict with
  | Ok ad =>
      ∃ cd, fst out = Ok cd ∧ cd !! "authenticator_data" = Some (VAuthenticatorData ad)
  | Raise e => fst out = Raise e
  end.
Proof.
  cbn zeta. intros Hc Hp Huv Hs Ht.
  rewrite (clean_passwordless_unverified self w c Hc Hp Huv). cbn zeta.
  rewrite Hs, Ht.
  destruct (complete_registration _ _ _) as [[ad|e] b]; cbn.
  - split; [done|]. split; [done|]. split; [apply non_field_errors_add_error|].
    eexists. split; [done|]. by rewrite lookup_insert_eq.
  - split; [done|]. split; [done|]. split; [apply non_field_errors_add_error|done].
Qed.
End AddWebAuthnFormProperties.

(** ** AuthenticateWebAuthnForm *)

Section AuthenticateWebAuthnFormProperties.
Context {RL B : Type} `{!RateLimit RL} `{!Services B}.
Import AuthenticateWebAuthnForm.

(** The [signed_state] turn of [_clean_fields]: the field is cleaned, or
    the decoder's error leaves validation. *)
Lemma clean_signed_state_field (self : t) (w : World RL B) :
  let out := clean_one_field "signed_state" (CharField false) (self, w) in
  (∃ doc, fst out = Raise (JSONDecodeError doc)) ∨
  (fst out = Ok tt ∧ data (form (fst (snd out))) = data (form self)).
Proof.
  cbn zeta. unfold clean_one_field.
  cbn [clean_hook form_class String.eqb Ascii.eqb Bool.eqb].
  unfold clean_signed_state, clean_signed_state_body. run.
  cbn [base with_base form_object form].
  unfold field_clean.
  destruct (String.eqb _ ""); [|destruct (has_null _)]; cbn;
    rewrite ?lookup_insert_eq; cbn.
  all: try (right; done).
  all: destruct (signer_unsign _) as [payload|]; cbn; [|right; done].
  all: destruct (json_loads payload); cbn; [right; done|left; by eexists].
Qed.

(** The [credential] turn when the submission has no such field: the
    "required" error is recorded and the field leaves [cleaned_data]. *)
Lemma clean_credential_field_missing (self : t) (w : World RL B) (d : gmap string string) :
  data (form self) = Some d → d !! "credential" = None →
  clean_one_field "credential" (CharField true) (self, w)
  = (Ok tt,
     (with_base (BaseForm_add_error (Some "credential") (FieldErrorMessage "required")
                   (form self)) self, w)).
Proof.
  intros Hd Hc. unfold clean_one_field. run. cbn [base with_base form_object form].
  rewrite Hd, Hc. cbn. done.
Qed.

(** The [credential] turn on a value that is not JSON. *)
Lemma clean_credential_field_malformed
    (self : t) (w : World RL B) (d : gmap string string) (c : string) :
  data (form self) = Some d → d !! "credential" = Some c →
  String.eqb (strip c) "" = false → has_null (strip c) = false →
  json_loads (strip c) = None →
  fst (clean_one_field "credential" (CharField true) (self, w))
  = Raise (JSONDecodeError (strip c)).
Proof.
  intros Hd Hc Hne Hnull Hjson. unfold clean_one_field.
  cbn [clean_hook form_class String.eqb Ascii.eqb Bool.eqb].
  unfold clean_credential. run. cbn [base with_base form_object form].
  rewrite Hd, Hc. unfold field_clean. rewrite Hne, Hnull. cbn.
  rewrite lookup_insert_eq. cbn. rewrite Hjson. done.
Qed.

(** [clean] indexes [cleaned_data] with "credential". *)
Lemma clean_without_credential (self : t) (w : World RL B) :
  cleaned_data (form self) !! "credential" = None →
  clean (self, w) = (Raise (KeyError "credential"), (self, w)).
Proof.
  intros Hc. unfold clean. run. cbn [base form_object]. by rewrite Hc.
Qed.

(** C4, on the code.  A submission without the [credential] field does
    not end in recorded errors: whatever the collaborators do,
    [full_clean] raises an exception that is not a [ValidationError],
    the [KeyError] of [cleaned_data["credential"]] in [clean] (or, before
    it, the decoder's error on the signed state). *)
Theorem missing_credential_escapes_validation
    (u : User) (d : gmap string string) (initial : gmap string PyVal) (w : World RL B) :
  ∃ e, fst (full_clean (__init__ u (Some (delete "credential" d)) initial w)) = Raise e ∧
       is_ValidationError e = false ∧
       (e = KeyError "credential" ∨ ∃ doc, e = JSONDecodeError doc).
Proof.
  unfold __init__.
  destruct (begin_authentication u (backend w)) as [[ad state] b].
  unfold full_clean, _clean_fields, _clean_form.
  cbn [declared_fields form_class clean_fields_loop form_clean].
  unfold bind at 1. unfold update_base at 1. unfold modify at 1. cbn [fst snd].
  unfold bind at 1. unfold self_base at 1. unfold gets at 1. cbn [fst snd].
  cbn [base with_base form_object form is_bound data BaseForm_init set_errors negb].
  unfold bind at 1. unfold update_base at 1. unfold modify at 1. cbn [fst snd].
  cbn [base with_base form_object form is_bound data BaseForm_init set_errors set_cleaned_data].
  unfold bind at 1. unfold bind at 1.
  match goal with |- context [clean_one_field "signed_state" _ (?s, ?w0)] =>
    destruct (clean_signed_state_field s w0) as [[doc Hdoc]|[Hok Hdata]];
    destruct (clean_one_field "signed_state" _ (s, w0)) as [r1 [self1 w1]] end;
    cbn [fst snd] in *.
  - subst r1. eexists. split; [reflexivity|]. split; [done|]. right. by eexists.
  - subst r1. unfold bind at 1.
    rewrite (clean_credential_field_missing self1 w1 _ Hdata) by apply lookup_delete_eq.
    unfold ret, try_except. unfold bind at 1.
    rewrite clean_without_credential.
    2: { cbn. apply lookup_delete_eq. }
    eexists. split; [reflexivity|]. split; [done|]. by left.
Qed.

(** A credential that is not JSON: the decoder's error leaves
    [full_clean], from [clean_credential] or from the signed state
    before it. *)
Lemma malformed_credential_escapes_validation
    (u : User) (d : gmap string string) (initial : gmap string PyVal) (w : World RL B)
    (c : string) :
  d !! "credential" = Some c →
  String.eqb (strip c) "" = false → has_null (strip c) = false →
  json_loads (strip c) = None →
  ∃ doc, fst (full_clean (__init__ u (Some d) initial w)) = Raise (JSONDecodeError doc).
Proof.
  intros Hc Hne Hnull Hjson. unfold __init__.
  destruct (begin_authentication u (backend w)) as [[ad state] b].
  unfold full_clean, _clean_fields, _clean_form.
  cbn [declared_fields form_class clean_fields_loop form_clean].
  unfold bind at 1. unfold update_base at 1. unfold modify at 1. cbn [fst snd].
  unfold bind at 1. unfold self_base at 1. unfold gets at 1. cbn [fst snd].
  cbn [base with_base form_object form is_bound data BaseForm_init set_errors negb].
  unfold bind at 1. unfold update_base at 1. unfold modify at 1. cbn [fst snd].
  cbn [base with_base form_object form is_bound data BaseForm_init set_errors set_cleaned_data].
  unfold bind at 1. unfold bind at 1.
  match goal with |- context [clean_one_field "signed_state" _ (?s, ?w0)] =>
    destruct (clean_signed_state_field s w0) as [[doc Hdoc]|[Hok Hdata]];
    destruct (clean_one_field "signed_state" _ (s, w0)) as [r1 [self1 w1]] end;
    cbn [fst snd] in *.
  - subst r1. by eexists.
  - subst r1. unfold bind at 1.
    pose proof (clean_credential_field_malformed self1 w1 d c Hdata Hc Hne Hnull Hjson) as Hm.
    destruct (clean_one_field "credential" _ (self1, w1)) as [r2 s2]. cbn in Hm. subst r2.
    by eexists.
Qed.
End AuthenticateWebAuthnFormProperties.

(** ** Concrete runs *)

(** Against C3 as stated.  A token that verifies and carries a payload
    that is not JSON is not answered with the tampered-form error: the decoder's error leaves
    [clean_signed_state], and with it [full_clean]. *)
Lemma undecodable_payload_escapes_as_decode_error :
  Scenario.signed_not_json = "oops:4" ∧
  Example.example_unsign "oops:4" = Some "oops" ∧
  Example.example_loads "oops" = None ∧
  fst (AuthenticateWebAuthnForm.clean_signed_state
         (having_cleaned "signed_state" (VStr "oops:4") (fst (Scenario.assertion ∅)),
          Example.world))
  = Raise (JSONDecodeError "oops") ∧
  fst (AuthenticateWebAuthnForm.clean_signed_state
         (having_cleaned "signed_state" (VStr "oops:4") (fst (Scenario.assertion ∅)),
          Example.world))
  ≠ Raise (ValidationError TamperedState) ∧
  fst (full_clean
         (Scenario.assertion {[ "signed_state" := "oops:4"; "credential" := "true" ]}))
  = Raise (JSONDecodeError "oops").
Proof. vm_compute. repeat split; discriminate. Qed.

(** The empty submission, and a credential that is not JSON, on the
    authentication form; the empty submission on the registration form. *)
Example empty_submission_raises_key_error :
  fst (full_clean (Scenario.assertion ∅)) = Raise (KeyError "credential").
Proof. vm_compute. reflexivity. Qed.

Example malformed_credential_raises_decode_error :
  fst (full_clean (Scenario.assertion {[ "signed_state" := "7:1"; "credential" := "oops" ]}))
  = Raise (JSONDecodeError "oops").
Proof. vm_compute. reflexivity. Qed.

Example add_form_tolerates_missing_credential :
  fst (full_clean
         (AddWebAuthnForm.__init__ Example.alice (Some ∅) ∅ Example.world))
  = Ok tt.
Proof. vm_compute. reflexivity. Qed.

(** Alice, locked out, submits the right code: the limiter denies, and the
    consume is the only call of the run. *)
Lemma rate_limit_consumed_first_witness :
  fst (ratelimit_consume "login_failed" (AuthenticateForm.rate_limit_key Example.alice)
         (limiter Scenario.locked_out)) = false ∧
  fst (AuthenticateForm.clean_code (Scenario.login "123456", Scenario.locked_out))
  = Raise (ValidationError TooManyAttempts) ∧
  log (snd (snd (AuthenticateForm.clean_code (Scenario.login "123456", Scenario.locked_out))))
  = [EvConsume "login_failed" "mfa-auth-user-1" false].
Proof.
  assert (fst (ratelimit_consume "login_failed" (AuthenticateForm.rate_limit_key Example.alice)
                 (limiter Scenario.locked_out)) = false) as Hdenied
    by (vm_compute; reflexivity).
  split; [exact Hdenied|].
  destruct (rate_limit_consumed_first (Scenario.login "123456") Scenario.locked_out)
    as (_ & Hstop & _).
  destruct (Hstop Hdenied) as (Hres & _ & _ & Hlog).
  split; [exact Hres|exact Hlog].
Defined.

(** Alice submits the code of her TOTP authenticator in the fresh world. *)
Lemma first_matching_authenticator_wins_witness :
  fst (ratelimit_consume "login_failed" (AuthenticateForm.rate_limit_key Example.alice)
         (limiter Example.world)) = true ∧
  cleaned_data (AuthenticateForm.form (Scenario.login "123456")) !! "code"
  = Some (VStr "123456") ∧
  match fst (AuthenticateForm.clean_code (Scenario.login "123456", Example.world)) with
  | Ok v => v = VStr "123456"
  | Raise e => e = ValidationError IncorrectCode
  end.
Proof.
  assert (fst (ratelimit_consume "login_failed" (AuthenticateForm.rate_limit_key Example.alice)
                 (limiter Example.world)) = true) as Hallowed
    by (vm_compute; reflexivity).
  assert (cleaned_data (AuthenticateForm.form (Scenario.login "123456")) !! "code"
          = Some (VStr "123456")) as Hcode
    by (vm_compute; reflexivity).
  split; [exact Hallowed|]. split; [exact Hcode|].
  destruct (first_matching_authenticator_wins (Scenario.login "123456") Example.world
              (VStr "123456") Hallowed Hcode) as [_ Hout].
  destruct (fst (AuthenticateForm.clean_code (Scenario.login "123456", Example.world))).
  - exact (proj1 Hout).
  - exact (proj1 Hout).
Defined.

(** Alice submits a wrong code in the fresh world. *)
Lemma failed_attempt_is_not_refunded_witness :
  fst (AuthenticateForm.clean_code (Scenario.login "000000", Example.world))
  = Raise (ValidationError IncorrectCode) ∧
  limiter (snd (snd (AuthenticateForm.clean_code (Scenario.login "000000", Example.world))))
  = snd (ratelimit_consume "login_failed" (AuthenticateForm.rate_limit_key Example.alice)
           (limiter Example.world)).
Proof.
  assert (fst (AuthenticateForm.clean_code (Scenario.login "000000", Example.world))
          = Raise (ValidationError IncorrectCode)) as Hfail
    by (vm_compute; reflexivity).
  split; [exact Hfail|].
  exact (proj1 (proj2 (proj1 (failed_attempt_is_not_refunded
                                (Scenario.login "000000") Example.world Hfail)))).
Defined.

(** In the budget limiter the unit taken by a failed attempt stays taken. *)
Lemma failed_attempt_budget (limit : nat) {B : Type} `{!Services B}
    (self : AuthenticateForm.t) (w : World (gmap (string * string) nat) B) :
  let key := AuthenticateForm.rate_limit_key (AuthenticateForm.user self) in
  let out := AuthenticateForm.clean_code (RateLimit0 := Budget.rate_limit limit) (self, w) in
  fst out = Raise (ValidationError IncorrectCode) →
  S (Budget.remaining limit "login_failed" key (limiter (snd (snd out))))
  = Budget.remaining limit "login_failed" key (limiter w).
Proof.
  cbn zeta. intros Hfail.
  destruct (incorrect_code_outcome (RateLimit0 := Budget.rate_limit limit) self w Hfail)
    as (Hallowed & Hlimiter & _).
  rewrite Hlimiter. by apply Budget_consume_allowed.
Qed.




(** Bob's address is not verified: even the right code is not looked at. *)
Lemma unverified_email_stops_before_code_check_witness :
  has_unverified_email Example.bob (backend Example.world) = true ∧
  fst (ActivateTOTPForm.clean_code
         (having_cleaned "code" (VStr "secret-0")
            (fst (ActivateTOTPForm.__init__ Example.bob (Some ∅) Example.world)),
          snd (ActivateTOTPForm.__init__ Example.bob (Some ∅) Example.world)))
  = Raise (ValidationError UnverifiedEmail).
Proof.
  assert (has_unverified_email Example.bob (backend Example.world) = true) as Hun
    by (vm_compute; reflexivity).
  split; [exact Hun|].
  exact (proj1 (unverified_email_stops_before_code_check Example.bob (Some ∅) Example.world
                  (VStr "secret-0") Hun)).
Defined.

(** The registration form of the scenario. *)
Lemma passwordless_requires_user_verification_witness :
  cleaned_data (AddWebAuthnForm.form Scenario.registration) !! "credential"
  = Some (VRegistrationCredential Scenario.unverified_credential) ∧
  cleaned_data (AddWebAuthnForm.form Scenario.registration) !! "passwordless"
  = Some (VBool true) ∧
  is_user_verified (auth_data (attestation_object Scenario.unverified_credential)) = false ∧
  non_field_errors
    (AddWebAuthnForm.form
       (fst (snd (AddWebAuthnForm.clean (Scenario.registration, Example.world)))))
  = (non_field_errors (AddWebAuthnForm.form Scenario.registration)
       ++ [PasswordlessUnsupported])%list.
Proof.
  assert (cleaned_data (AddWebAuthnForm.form Scenario.registration) !! "credential"
          = Some (VRegistrationCredential Scenario.unverified_credential)) as Hc
    by (vm_compute; reflexivity).
  assert (cleaned_data (AddWebAuthnForm.form Scenario.registration) !! "passwordless"
          = Some (VBool true)) as Hp
    by (vm_compute; reflexivity).
  assert (is_user_verified (auth_data (attestation_object Scenario.unverified_credential))
          = false) as Huv
    by reflexivity.
  split; [exact Hc|]. split; [exact Hp|]. split; [exact Huv|].
  exact (proj1 (passwordless_requires_user_verification Scenario.registration Example.world
                  Scenario.unverified_credential Hc Hp Huv)).
Defined.

(** The registration form of the scenario: the verifier is called. *)
Lemma policy_rejection_does_not_stop_registration_witness :
  cleaned_data (AddWebAuthnForm.form Scenario.registration) !! "credential"
  = Some (VRegistrationCredential Scenario.unverified_credential) ∧
  cleaned_data (AddWebAuthnForm.form Scenario.registration) !! "passwordless"
  = Some (VBool true) ∧
  is_user_verified (auth_data (attestation_object Scenario.unverified_credential)) = false ∧
  cleaned_data (AddWebAuthnForm.form Scenario.registration) !! "signed_state"
  = Some (VJson (JNum 7)) ∧
  truthy (VJson (JNum 7)) = true ∧
  log (snd (snd (AddWebAuthnForm.clean (Scenario.registration, Example.world))))
  = (log Example.world
       ++ [EvCompleteRegistration (VJson (JNum 7))
             (VRegistrationCredential Scenario.unverified_credential)])%list.
Proof.
  assert (cleaned_data (AddWebAuthnForm.form Scenario.registration) !! "credential"
          = Some (VRegistrationCredential Scenario.unverified_credential)) as Hc
    by (vm_compute; reflexivity).
  assert (cleaned_data (AddWebAuthnForm.form Scenario.registration) !! "passwordless"
          = Some (VBool true)) as Hp
    by (vm_compute; reflexivity).
  assert (is_user_verified (auth_data (attestation_object Scenario.unverified_credential))
          = false) as Huv
    by reflexivity.
  assert (cleaned_data (AddWebAuthnForm.form Scenario.registration) !! "signed_state"
          = Some (VJson (JNum 7))) as Hs
    by (vm_compute; reflexivity).
  assert (truthy (VJson (JNum 7)) = true) as Ht by reflexivity.
  split; [exact Hc|]. split; [exact Hp|]. split; [exact Huv|].
  split; [exact Hs|]. split; [exact Ht|].
  exact (proj1 (policy_rejection_does_not_stop_registration Scenario.registration
                  Example.world Scenario.unverified_credential (VJson (JNum 7))
                  Hc Hp Huv Hs Ht)).
Defined.

(** ** From the submission to [clean_code] *)

Section CodeField.
Context {RL B : Type} `{!RateLimit RL} `{!Services B}.

(** A submitted code that is not blank reaches
    [ActivateTOTPForm.clean_code], stripped, in [cleaned_data]; a
    [ValidationError] of the method becomes an error of the field. *)
Lemma activate_code_field_runs_clean_code
    (self : ActivateTOTPForm.t) (w : World RL B) (d : gmap string string) (c : string) :
  data (ActivateTOTPForm.form self) = Some d → d !! "code" = Some c →
  String.eqb (strip c) "" = false → has_null (strip c) = false →
  clean_one_field "code" (CharField true) (self, w) =
    match ActivateTOTPForm.clean_code (having_cleaned "code" (VStr (strip c)) self, w) with
    | (Ok v, (self', w')) => (Ok tt, (having_cleaned "code" v self', w'))
    | (Raise (ValidationError m), (self', w')) =>
        (Ok tt,
         (with_base (BaseForm_add_error (Some "code") m (ActivateTOTPForm.form self')) self',
          w'))
    | (Raise e, st) => (Raise e, st)
    end.
Proof.
  intros Hd Hc Hne Hnull. unfold clean_one_field.
  cbn [clean_hook ActivateTOTPForm.form_class String.eqb Ascii.eqb Bool.eqb].
  unfold bind at 1. unfold self_base at 1. unfold gets at 1.
  cbn [fst snd base ActivateTOTPForm.form_object].
  rewrite Hd, Hc. unfold field_clean. rewrite Hne, Hnull.
  unfold try_except, of_result, cleaned_data_setitem, update_base, modify, bind, add_error.
  cbn [fst snd base with_base ActivateTOTPForm.form_object ActivateTOTPForm.form].
  unfold having_cleaned. cbn [base with_base ActivateTOTPForm.form_object].
  destruct (ActivateTOTPForm.clean_code _) as [[v|e] [self' w']]; [done|].
  by destruct e.
Qed.

(** A blank code stops at the field: the "required" error is recorded,
    [clean_code] does not run, form attributes and world stay as they
    are. *)
Lemma activate_blank_code_stops_at_field
    (self : ActivateTOTPForm.t) (w : World RL B) (d : gmap string string) :
  data (ActivateTOTPForm.form self) = Some d →
  String.eqb (match d !! "code" with Some s => strip s | None => "" end) "" = true →
  clean_one_field "code" (CharField true) (self, w) =
    (Ok tt,
     (with_base (BaseForm_add_error (Some "code") (FieldErrorMessage "required")
                   (ActivateTOTPForm.form self)) self, w)).
Proof.
  intros Hd Hblank. unfold clean_one_field. run.
  cbn [base with_base ActivateTOTPForm.form_object].
  rewrite Hd. unfold field_clean. rewrite Hblank. done.
Qed.

(** The same for the login form. *)
Lemma authenticate_code_field_runs_clean_code
    (self : AuthenticateForm.t) (w : World RL B) (d : gmap string string) (c : string) :
  data (AuthenticateForm.form self) = Some d → d !! "code" = Some c →
  String.eqb (strip c) "" = false → has_null (strip c) = false →
  clean_one_field "code" (CharField true) (self, w) =
    match AuthenticateForm.clean_code (having_cleaned "code" (VStr (strip c)) self, w) with
    | (Ok v, (self', w')) => (Ok tt, (having_cleaned "code" v self', w'))
    | (Raise (ValidationError m), (self', w')) =>
        (Ok tt,
         (with_base (BaseForm_add_error (Some "code") m (AuthenticateForm.form self')) self',
          w'))
    | (Raise e, st) => (Raise e, st)
    end.
Proof.
  intros Hd Hc Hne Hnull. unfold clean_one_field.
  cbn [clean_hook AuthenticateForm.form_class String.eqb Ascii.eqb Bool.eqb].
  unfold bind at 1. unfold self_base at 1. unfold gets at 1.
  cbn [fst snd base AuthenticateForm.form_object].
  rewrite Hd, Hc. unfold field_clean. rewrite Hne, Hnull.
  unfold try_except, of_result, cleaned_data_setitem, update_base, modify, bind, add_error.
  cbn [fst snd base with_base AuthenticateForm.form_object AuthenticateForm.form].
  unfold having_cleaned. cbn [base with_base AuthenticateForm.form_object].
  destruct (AuthenticateForm.clean_code _) as [[v|e] [self' w']]; [done|].
  by destruct e.
Qed.
End CodeField.

(** Three wrong codes use up the budget of three, the fourth attempt is
    refused whatever the code; a right code in time clears the budget. *)
Example wrong_codes_exhaust_the_budget :
  fst (Scenario.logins ["000000"; "000000"; "000000"; "123456"] Example.world)
  = [[IncorrectCode]; [IncorrectCode]; [IncorrectCode]; [TooManyAttempts]].
Proof. vm_compute. reflexivity. Qed.

Example right_code_clears_the_budget :
  fst (Scenario.logins ["000000"; "000000"; "123456"; "000000"; "000000"; "000000"]
         Example.world)
  = [[IncorrectCode]; [IncorrectCode]; []; [IncorrectCode]; [IncorrectCode]; [IncorrectCode]].
Proof. vm_compute. reflexivity. Qed.

(** The registration submission end to end: the form is not valid, its one
    error is the passwordless one, and the verifier was called. *)
Example passwordless_submission_is_invalid :
  let out :=
    is_valid (AddWebAuthnForm.__init__ Example.alice (Some Scenario.passwordless_submission)
                ∅ Example.world) in
  fst out = Ok false ∧
  non_field_errors (AddWebAuthnForm.form (fst (snd out))) = [PasswordlessUnsupported] ∧
  List.length (log (snd (snd out))) = 1.
Proof. vm_compute. repeat split; reflexivity. Qed.

(** ** The framework steps, for any form class *)

Section Framework.
Context {S F : Type} `{!FormObject F} `{!FormClass S F}.

(** One turn of [_clean_fields], by the outcome of the field and of its
    [clean_<name>] method. *)
Lemma clean_one_field_outcome (name : string) (field : Field) (self : F) (w : S)
    (d : gmap string string) :
  data (base self) = Some d →
  clean_one_field name field (self, w) =
    match field_clean field (d !! name) with
    | Ok v =>
        match clean_hook name with
        | None => (Ok tt, (having_cleaned name v self, w))
        | Some hook =>
            match hook (having_cleaned name v self, w) with
            | (Ok v', (self', w')) => (Ok tt, (having_cleaned name v' self', w'))
            | (Raise (ValidationError m), (self', w')) =>
                (Ok tt, (with_base (BaseForm_add_error (Some name) m (base self')) self', w'))
            | (Raise e, st) => (Raise e, st)
            end
        end
    | Raise (ValidationError m) =>
        (Ok tt, (with_base (BaseForm_add_error (Some name) m (base self)) self, w))
    | Raise e => (Raise e, (self, w))
    end.
Proof.
  intros Hd. unfold clean_one_field.
  unfold bind at 1. unfold self_base at 1. unfold gets at 1. cbn [fst snd].
  rewrite Hd.
  destruct (field_clean field (d !! name)) as [v|e].
  - unfold try_except, of_result, bind at 1. unfold bind at 1.
    unfold cleaned_data_setitem at 1. unfold update_base, modify. cbn [fst snd].
    fold (having_cleaned name v self).
    destruct (clean_hook name) as [hook|]; [|done].
    unfold bind. destruct (hook _) as [[v'|e] [self' w']]; [done|].
    by destruct e.
  - unfold try_except, of_result, bind. by destruct e.
Qed.

(** [full_clean] on an unbound form only sets the errors to none. *)
Lemma full_clean_unbound (self : F) (w : S) :
  lawful_form F → data (base self) = None →
  full_clean (self, w) = (Ok tt, (with_base (set_errors (Some ∅) (base self)) self, w)).
Proof.
  intros [Hget Hset] Hd. unfold full_clean. run. rewrite Hget.
  unfold is_bound. cbn. by rewrite Hd.
Qed.

(** [full_clean] on a bound form: the fields, then the form. *)
Lemma full_clean_bound (self : F) (w : S) (d : gmap string string) :
  lawful_form F → data (base self) = Some d →
  full_clean (self, w) =
    match _clean_fields (reset_for_cleaning self, w) with
    | (Ok _, st) => _clean_form st
    | (Raise e, st) => (Raise e, st)
    end.
Proof.
  intros [Hget Hset] Hd. unfold full_clean.
  unfold bind at 1. unfold update_base at 1. unfold modify at 1. cbn [fst snd].
  unfold bind at 1. unfold self_base at 1. unfold gets at 1. cbn [fst snd].
  rewrite Hget. unfold is_bound. cbn [data set_errors]. rewrite Hd. cbn [negb].
  unfold bind at 1. unfold update_base at 1. unfold modify at 1. cbn [fst snd].
  rewrite Hget, Hset. unfold bind at 1.
  unfold reset_for_cleaning. cbn.
  by destruct (_clean_fields _) as [[[]|e] st].
Qed.
End Framework.

Lemma AuthenticateForm_lawful : lawful_form AuthenticateForm.t.
Proof. by split. Qed.

Lemma ActivateTOTPForm_lawful : lawful_form ActivateTOTPForm.t.
Proof. by split. Qed.

Lemma AuthenticateWebAuthnForm_lawful : lawful_form AuthenticateWebAuthnForm.t.
Proof. by split. Qed.

Lemma AddWebAuthnForm_lawful : lawful_form AddWebAuthnForm.t.
Proof. by split. Qed.

(** ** AuthenticateForm, as a whole *)

Section AuthenticateFormWhole.
Context {RL B : Type} `{!RateLimit RL} `{!Services B}.
Import AuthenticateForm.

(** The two ways out of [clean_code] once the code is there: the code and
    a matched authenticator of the user, or one of the two validation
    errors with the form as it was. *)
Lemma clean_code_cases (self : t) (w : World RL B) (code : PyVal) :
  cleaned_data (form self) !! "code" = Some code →
  (∃ a w', clean_code (self, w) = (Ok code, (set_authenticator a self, w')) ∧
           In a (authenticators_excluding_webauthn (user self) (backend w))) ∨
  (∃ m w', clean_code (self, w) = (Raise (ValidationError m), (self, w')) ∧
           (m = TooManyAttempts ∨ m = IncorrectCode)).
Proof.
  intros Hcode. unfold clean_code. run. unfold consume.
  destruct (ratelimit_consume _ _ (limiter w)) as [allowed r]. cbn.
  destruct allowed; cbn.
  2: { right. eexists _, _. split; [reflexivity|by left]. }
  cbn [base form_object]. rewrite Hcode. cbn. unfold query_authenticators. cbn.
  match goal with |- context [clean_code_loop ?k ?c ?l (?s, ?w0)] =>
    pose proof (clean_code_loop_outcome k c l s w0) as Hloop;
    destruct (clean_code_loop k c l (s, w0)) as [[v|e] [self' w']] end; cbn in *.
  - destruct Hloop as (-> & pre & a & post & Hc & _ & _ & _ & -> & _).
    left. exists a, w'. split; [done|]. rewrite Hc. apply in_or_app. right. by left.
  - destruct Hloop as (-> & -> & _). right. eexists _, _. split; [reflexivity|by right].
Qed.

(** Without the code in [cleaned_data], [clean_code] ends with a
    [KeyError], after the limiter has been asked. *)
Lemma clean_code_without_code (self : t) (w : World RL B) :
  cleaned_data (form self) !! "code" = None →
  ∃ e w', clean_code (self, w) = (Raise e, (self, w')) ∧
          (e = ValidationError TooManyAttempts ∨ e = KeyError "code").
Proof.
  intros Hcode. unfold clean_code. run. unfold consume.
  destruct (ratelimit_consume _ _ (limiter w)) as [allowed r]. cbn.
  destruct allowed; cbn.
  - cbn [base form_object]. rewrite Hcode. cbn. eexists _, _. split; [reflexivity|by right].
  - eexists _, _. split; [reflexivity|by left].
Qed.

(** X1.  [AuthenticateForm.clean_code] has four ways to end and no other:
    it returns the code it found in [cleaned_data], or it raises the
    too-many-attempts error, the incorrect-code error, or a [KeyError] when
    [cleaned_data] has no code. *)
Theorem clean_code_ends_in_code_or_known_error (self : t) (w : World RL B) :
  match fst (clean_code (self, w)) with
  | Ok v => cleaned_data (form self) !! "code" = Some v
  | Raise e =>
      e = ValidationError TooManyAttempts ∨ e = ValidationError IncorrectCode ∨
      (e = KeyError "code" ∧ cleaned_data (form self) !! "code" = None)
  end.
Proof.
  destruct (cleaned_data (form self) !! "code") as [code|] eqn:Hcode.
  - destruct (clean_code_cases self w code Hcode)
      as [(a & w' & -> & _)|(m & w' & -> & [->| ->])]; cbn; auto.
  - destruct (clean_code_without_code self w Hcode) as (e & w' & -> & [->| ->]); cbn; auto.
Qed.

(** X2.  When [AuthenticateForm.clean_code] returns, the authenticator
    it keeps on the form is a row of the database that belongs to the
    form's user and is not a WebAuthn key; when it raises, the form is as
    it was. *)
Theorem matched_authenticator_is_the_users (self : t) (w : World RL B) :
  let out := clean_code (self, w) in
  match fst out with
  | Ok _ =>
      ∃ a, authenticator (fst (snd out)) = Some a ∧
           In a (authenticator_rows (backend w)) ∧
           authenticator_user a = pk (user self) ∧
           authenticator_type a ≠ WEBAUTHN
  | Raise _ => fst (snd out) = self
  end.
Proof.
  cbn zeta.
  destruct (cleaned_data (form self) !! "code") as [code|] eqn:Hcode.
  - destruct (clean_code_cases self w code Hcode)
      as [(a & w' & -> & Hin)|(m & w' & -> & _)]; cbn; [|done].
    exists a. split; [done|]. by apply authenticators_excluding_webauthn_spec.
  - by destruct (clean_code_without_code self w Hcode) as (e & w' & -> & _).
Qed.

(** X3.  A user whose authenticators are all WebAuthn keys cannot pass
    [AuthenticateForm.clean_code]: with the limiter allowing the attempt,
    the code is refused as incorrect with no authenticator asked; the log
    has the limiter and the query only. *)
Theorem webauthn_only_user_cannot_authenticate (self : t) (w : World RL B) (code : PyVal) :
  let key := rate_limit_key (user self) in
  let out := clean_code (self, w) in
  (∀ a, In a (authenticator_rows (backend w)) → authenticator_user a = pk (user self) →
        authenticator_type a = WEBAUTHN) →
  fst (ratelimit_consume "login_failed" key (limiter w)) = true →
  cleaned_data (form self) !! "code" = Some code →
  fst out = Raise (ValidationError IncorrectCode) ∧
  backend (snd (snd out)) = backend w ∧
  log (snd (snd out))
  = (log w ++ [EvConsume "login_failed" key true;
               EvQueryAuthenticators (pk (user self))])%list.
Proof.
  cbn zeta. intros Honly Hallowed Hcode.
  assert (authenticators_excluding_webauthn (user self) (backend w) = []) as Hnone.
  { destruct (authenticators_excluding_webauthn (user self) (backend w)) as [|a l] eqn:Hl;
      [done|].
    assert (In a (authenticators_excluding_webauthn (user self) (backend w))) as Hin
      by (rewrite Hl; by left).
    apply authenticators_excluding_webauthn_spec in Hin as (Hin & Hu & Ht).
    by specialize (Honly a Hin Hu). }
  unfold clean_code. run. unfold consume.
  destruct (ratelimit_consume _ _ (limiter w)) as [allowed r]. cbn in Hallowed. subst allowed.
  cbn. cbn [base form_object]. rewrite Hcode. cbn. unfold query_authenticators. cbn.
  rewrite Hnone. cbn. by rewrite <- app_assoc.
Qed.

(** [_clean_form] of a form without a [clean] of its own changes nothing
    that can be read. *)
Lemma clean_form_default (self : t) (w : World RL B) :
  _clean_form (self, w) = (Ok tt, (self, w)).
Proof.
  unfold _clean_form. cbn [form_clean form_class]. run.
  cbn [base with_base form_object]. by destruct self as [[] ? ?].
Qed.

(** [full_clean] on the login form always comes back, with no error
    recorded exactly when an authenticator has been kept. *)
Lemma login_full_clean (u : User) (d : option (gmap string string)) (w : World RL B) :
  ∃ self' w',
    full_clean (__init__ u d, w) = (Ok tt, (self', w')) ∧
    is_bound (form self') && bool_decide (errors_of (form self') = ∅)
    = match authenticator self' with Some _ => true | None => false end.
Proof.
  destruct d as [d|].
  2: { rewrite full_clean_unbound by (apply AuthenticateForm_lawful || done).
       by eexists _, _. }
  rewrite (full_clean_bound _ _ d) by (apply AuthenticateForm_lawful || done).
  unfold _clean_fields. cbn [declared_fields form_class clean_fields_loop].
  unfold bind at 1. rewrite (clean_one_field_outcome _ _ _ _ d) by done.
  cbn [clean_hook form_class String.eqb Ascii.eqb Bool.eqb].
  destruct (field_clean (CharField true) (d !! "code")) as [v|e] eqn:Hfield.
  - match goal with |- context [clean_code (?s, ?w0)] =>
      destruct (clean_code_cases s w0 v) as [(a & w' & Heq & _)|(m & w' & Heq & _)];
        [cbn; by rewrite lookup_insert_eq| |]; rewrite Heq end.
    + unfold ret. rewrite clean_form_default. by eexists _, _.
    + unfold ret. rewrite clean_form_default. eexists _, _. split; [done|]. cbn.
      rewrite bool_decide_eq_false_2; [done|]. apply insert_non_empty.
  - unfold field_clean in Hfield.
    destruct (String.eqb _ ""); [|destruct (has_null _)]; try discriminate;
      injection Hfield as <-; unfold ret; rewrite clean_form_default;
      eexists _, _; (split; [done|]); cbn;
      (rewrite bool_decide_eq_false_2; [done|]; apply insert_non_empty).
Qed.

Lemma login_is_valid_iff_authenticator_kept_aux
    (u : User) (d : option (gmap string string)) (w : World RL B) :
  let out := is_valid (__init__ u d, w) in
  fst out = Ok (match authenticator (fst (snd out)) with Some _ => true | None => false end).
Proof.
  cbn zeta. unfold is_valid. run.
  destruct (login_full_clean u d w) as (self' & w' & -> & Hvalid).
  cbn. by rewrite Hvalid.
Qed.

(** X5.  [is_valid] on the login form always comes back with yes or no,
    whatever is submitted and whatever the collaborators do, and it says
    yes exactly when an authenticator has been kept on the form. *)
Theorem login_is_valid_iff_authenticator_kept
    (u : User) (d : option (gmap string string)) (w : World RL B) :
  let out := is_valid (__init__ u d, w) in
  (fst out = Ok true ∨ fst out = Ok false) ∧
  (fst out = Ok true ↔ ∃ a, authenticator (fst (snd out)) = Some a).
Proof.
  cbn zeta. rewrite (login_is_valid_iff_authenticator_kept_aux u d w).
  destruct (authenticator _) as [a|].
  - split; [by left|]. split; [by eexists|done].
  - split; [by right|]. split; [discriminate|by intros [a ?]].
Qed.
End AuthenticateFormWhole.

Section AuthenticateFormSubmission.
Context {RL B : Type} `{!RateLimit RL} `{!Services B} `{!PostAuthentication B}.
Import AuthenticateForm.

(** X6.  A login submission whose code is missing or blank stops at the
    field: the required error is recorded for the code, [clean_code] does
    not run, so no attempt is taken from the limiter, nothing is queried
    and no authenticator is kept. *)
Theorem blank_code_spends_no_attempt (u : User) (d : gmap string string) (w : World RL B) :
  String.eqb (match d !! "code" with Some s => strip s | None => "" end) "" = true →
  ∃ self',
    full_clean (__init__ u (Some d), w) = (Ok tt, (self', w)) ∧
    field_errors "code" (form self') = [FieldErrorMessage "required"] ∧
    authenticator self' = None.
Proof.
  intros Hblank.
  rewrite (full_clean_bound _ _ d) by (apply AuthenticateForm_lawful || done).
  unfold _clean_fields. cbn [declared_fields form_class clean_fields_loop].
  unfold bind at 1. rewrite (clean_one_field_outcome _ _ _ _ d) by done.
  unfold field_clean. rewrite Hblank. unfold ret. rewrite clean_form_default.
  eexists. split; [done|]. split; [|done].
  unfold field_errors, errors_of. cbn. by rewrite lookup_insert_eq.
Qed.

(** X7.  [AuthenticateForm.save] after [is_valid]: when the form is
    valid, [post_authentication] gets the authenticator that matched and
    its outcome is the outcome of [save]; when it is not, [save] ends with
    an [AttributeError], the attribute never having been set. *)
Theorem save_needs_a_valid_form (u : User) (d : option (gmap string string)) (w : World RL B) :
  let out := is_valid (__init__ u d, w) in
  match authenticator (fst (snd out)) with
  | Some a =>
      fst out = Ok true ∧
      AuthenticateForm_save (snd out)
      = (fst (post_authentication a (backend (snd (snd out)))),
         (fst (snd out),
          set_backend (snd (post_authentication a (backend (snd (snd out)))))
            (snd (snd out))))
  | None =>
      fst out = Ok false ∧
      AuthenticateForm_save (snd out) = (Raise (Foreign "AttributeError"), snd out)
  end.
Proof.
  cbn zeta. pose proof (login_is_valid_iff_authenticator_kept_aux u d w) as Hvalid.
  destruct (is_valid (__init__ u d, w)) as [r [self' w']]. cbn in *.
  unfold AuthenticateForm_save. run.
  destruct (authenticator self') as [a|]; [|done].
  split; [done|]. unfold on_world_result. cbn. by destruct (post_authentication a _).
Qed.
End AuthenticateFormSubmission.

(** ** ActivateTOTPForm, as a whole *)

Section ActivateTOTPFormWhole.
Context {RL B : Type} `{!RateLimit RL} `{!Services B}.
Import ActivateTOTPForm.

Lemma activate_clean_form_default (self : t) (w : World RL B) :
  _clean_form (self, w) = (Ok tt, (self, w)).
Proof.
  unfold _clean_form. cbn [form_clean form_class]. run.
  cbn [base with_base form_object]. by destruct self as [[] ? ? ?].
Qed.

(** [full_clean] on a bound enrollment form, by the outcome of the code
    field. *)
Lemma activate_full_clean (self : t) (w : World RL B) (d : gmap string string) :
  data (form self) = Some d →
  full_clean (self, w) =
    match clean_one_field "code" (CharField true) (reset_for_cleaning self, w) with
    | (Ok _, st) => (Ok tt, st)
    | (Raise e, st) => (Raise e, st)
    end.
Proof.
  intros Hd.
  rewrite (full_clean_bound _ _ d) by (apply ActivateTOTPForm_lawful || done).
  unfold _clean_fields. cbn [declared_fields form_class clean_fields_loop].
  unfold bind, ret.
  destruct (clean_one_field _ _ _) as [[[]|e] [s1 w1]]; [|done].
  apply activate_clean_form_default.
Qed.

(** X9.  A blank code on the enrollment form is a required error of the
    field; [clean_code] does not run, so the secret is not regenerated and
    nothing in the world changes. *)
Theorem blank_code_keeps_pending_secret (self : t) (w : World RL B) (d : gmap string string) :
  data (form self) = Some d →
  String.eqb (match d !! "code" with Some s => strip s | None => "" end) "" = true →
  ∃ self',
    full_clean (self, w) = (Ok tt, (self', w)) ∧
    secret self' = secret self ∧
    field_errors "code" (form self') = [FieldErrorMessage "required"].
Proof.
  intros Hd Hblank. rewrite (activate_full_clean _ _ d Hd).
  rewrite (activate_blank_code_stops_at_field _ _ d) by done.
  eexists. split; [done|]. split; [done|].
  unfold field_errors, errors_of. cbn. by rewrite lookup_insert_eq.
Qed.

(** X10.  A code the validator accepts for the form's secret, the email
    being verified, leaves the enrollment form without errors, with the
    stripped code cleaned and the secret kept; the validator is asked
    once, about that secret. *)
Theorem accepted_code_keeps_pending_secret
    (self : t) (w : World RL B) (d : gmap string string) (c : string) :
  data (form self) = Some d → d !! "code" = Some c →
  String.eqb (strip c) "" = false → has_null (strip c) = false →
  email_verified self = true →
  validate_totp_code (secret self) (VStr (strip c)) (backend w) = true →
  ∃ self',
    full_clean (self, w)
    = (Ok tt, (self', record (EvValidateTotpCode (secret self) (VStr (strip c)) true) w)) ∧
    secret self' = secret self ∧
    errors_of (form self') = ∅ ∧
    cleaned_data (form self') !! "code" = Some (VStr (strip c)).
Proof.
  intros Hd Hc Hne Hnull Hev Hok. rewrite (activate_full_clean _ _ d Hd).
  rewrite (activate_code_field_runs_clean_code _ _ d c) by done.
  rewrite (clean_code_outcome _ _ (VStr (strip c))) by (cbn; by rewrite lookup_insert_eq).
  cbn [having_cleaned with_base form_object email_verified secret reset_for_cleaning].
  rewrite Hev, Hok.
  eexists. split; [done|]. split; [done|]. split; [done|].
  cbn. by rewrite lookup_insert_eq.
Qed.

(** X8.  Validating the enrollment form never raises, and neither
    building it nor validating it touches the rate limiter: unlike the
    login form, [ActivateTOTPForm] puts no limit on attempts. *)
Theorem enrollment_is_not_rate_limited
    (u : User) (d : option (gmap string string)) (w : World RL B) :
  let out := full_clean (__init__ u d w) in
  fst out = Ok tt ∧
  limiter (snd (__init__ u d w)) = limiter w ∧
  limiter (snd (snd out)) = limiter w.
Proof.
  cbn zeta.
  assert (limiter (snd (__init__ u d w)) = limiter w) as Hinit.
  { unfold __init__, query_unverified_email, get_totp_secret. cbn.
    destruct (if negb _ then _ else _); [done|].
    by destruct (generate_totp_secret _). }
  destruct (init_email_verified u d w) as (_ & _ & Hform).
  destruct (__init__ u d w) as [self w0]. cbn [fst snd] in *.
  destruct d as [d|].
  2: { rewrite full_clean_unbound by (apply ActivateTOTPForm_lawful || (cbn; by rewrite Hform)).
       done. }
  rewrite (activate_full_clean _ _ d) by (by rewrite Hform).
  rewrite (clean_one_field_outcome _ _ _ _ d) by (cbn; by rewrite Hform).
  cbn [clean_hook form_class String.eqb Ascii.eqb Bool.eqb].
  destruct (field_clean (CharField true) (d !! "code")) as [v|e] eqn:Hfield.
  - rewrite (clean_code_outcome _ _ v) by (cbn; by rewrite lookup_insert_eq).
    destruct (email_verified _); [destruct (validate_totp_code _ _ _)|]; cbn;
      try destruct (generate_totp_secret _); done.
  - unfold field_clean in Hfield.
    destruct (String.eqb _ ""); [|destruct (has_null _)]; try discriminate;
      by injection Hfield as <-.
Qed.

(** X11.  [ActivateTOTPForm.__init__] asks for regeneration exactly when
    the form is unbound: the form that shows the secret gets a new one, the
    bound form built next gets the same secret and generates nothing. *)
Theorem bound_form_reuses_pending_secret
    (u : User) (d : gmap string string) (w : World RL B) :
  let shown := __init__ u None w in
  let submitted := __init__ u (Some d) (snd shown) in
  secret (fst shown) = fst (generate_totp_secret (backend w)) ∧
  session_totp_secret (snd shown) = Some (secret (fst shown)) ∧
  secret (fst submitted) = secret (fst shown) ∧
  backend (snd submitted) = backend (snd shown) ∧
  session_totp_secret (snd submitted) = Some (secret (fst shown)).
Proof.
  cbn zeta. unfold __init__, query_unverified_email, get_totp_secret. cbn.
  by destruct (generate_totp_secret (backend w)).
Qed.
End ActivateTOTPFormWhole.

(** ** AuthenticateWebAuthnForm, as a whole *)

Section AuthenticateWebAuthnFormWhole.
Context {RL B : Type} `{!RateLimit RL} `{!Services B}.
Import AuthenticateWebAuthnForm.

Lemma assertion_init (u : User) (d : option (gmap string string))
    (initial : gmap string PyVal) (w : World RL B) :
  data (form (fst (__init__ u d initial w))) = d ∧
  user (fst (__init__ u d initial w)) = u ∧
  log (snd (__init__ u d initial w)) = log w ∧
  limiter (snd (__init__ u d initial w)) = limiter w.
Proof.
  unfold __init__. by destruct (begin_authentication u (backend w)) as [[ad state] b].
Qed.

(** The [credential] turn of [_clean_fields]: the world is as it was, the
    other fields are as they were, and the credential in [cleaned_data],
    if any, was parsed from the submission. *)
Lemma assertion_credential_field (self : t) (w : World RL B) (d : gmap string string) :
  data (form self) = Some d →
  ∃ r self1,
    clean_one_field "credential" (CharField true) (self, w) = (r, (self1, w)) ∧
    user self1 = user self ∧
    match r with
    | Ok _ =>
        cleaned_data (form self1) !! "signed_state"
        = cleaned_data (form self) !! "signed_state" ∧
        (cleaned_data (form self1) !! "credential" = None ∨
         ∃ jc c,
           json_loads (submitted d "credential") = Some jc ∧
           parse_authentication_credential jc = Ok c ∧
           cleaned_data (form self1) !! "credential"
           = Some (VAuthenticationCredential c))
    | Raise e => is_ValidationError e = false
    end.
Proof.
  intros Hd. rewrite (clean_one_field_outcome _ _ _ _ d) by done.
  cbn [clean_hook form_class String.eqb Ascii.eqb Bool.eqb].
  unfold field_clean. fold (submitted d "credential").
  destruct (String.eqb (submitted d "credential") "");
    [|destruct (has_null (submitted d "credential"))].
  1,2: eexists _, _; (split; [reflexivity|]); (split; [done|]); cbn;
       (split; [by rewrite lookup_delete_ne|]); left; by rewrite lookup_delete_eq.
  unfold clean_credential. run. cbn [base with_base form_object form having_cleaned].
  cbn. rewrite lookup_insert_eq. cbn.
  destruct (json_loads (submitted d "credential")) as [jc|]; cbn.
  2: { by eexists _, _. }
  destruct (parse_authentication_credential jc) as [c|e] eqn:Hparse; cbn.
  - eexists _, _. split; [reflexivity|]. split; [done|]. cbn.
    rewrite !lookup_insert_ne by done. split; [done|].
    right. exists jc, c. by rewrite lookup_insert_eq.
  - destruct e; try by eexists _, _.
    eexists _, _. split; [reflexivity|]. split; [done|]. cbn.
    rewrite lookup_delete_ne, lookup_insert_ne by done. split; [done|].
    left. by rewrite lookup_delete_eq.
Qed.

(** The [signed_state] turn: the world is as it was, and the state in
    [cleaned_data], if any, was decoded from a token whose signature
    verified. *)
Lemma assertion_signed_state_field (self : t) (w : World RL B) (d : gmap string string) :
  data (form self) = Some d →
  ∃ r self1,
    clean_one_field "signed_state" (CharField false) (self, w) = (r, (self1, w)) ∧
    user self1 = user self ∧ data (form self1) = Some d ∧
    match r with
    | Ok _ =>
        cleaned_data (form self1) !! "signed_state" = None ∨
        ∃ payload state,
          signer_unsign (submitted d "signed_state") = Some payload ∧
          json_loads payload = Some state ∧
          cleaned_data (form self1) !! "signed_state" = Some (VJson state)
    | Raise e => is_ValidationError e = false
    end.
Proof.
  intros Hd. rewrite (clean_one_field_outcome _ _ _ _ d) by done.
  cbn [clean_hook form_class String.eqb Ascii.eqb Bool.eqb].
  assert (field_clean (CharField false) (d !! "signed_state")
          = Ok (VStr (submitted d "signed_state")) ∨
          ∃ m, field_clean (CharField false) (d !! "signed_state")
               = Raise (ValidationError m)) as [-> | [m ->]].
  { unfold field_clean. fold (submitted d "signed_state").
    destruct (String.eqb_spec (submitted d "signed_state") "") as [->|_]; [by left|].
    destruct (has_null _); [right; by eexists|by left]. }
  2: { eexists _, _. split; [reflexivity|]. split; [done|]. split; [done|].
       left. cbn. by rewrite lookup_delete_eq. }
  unfold clean_signed_state.
  rewrite (clean_signed_state_body_outcome _ _ (submitted d "signed_state"))
    by (cbn; by rewrite lookup_insert_eq).
  destruct (signer_unsign (submitted d "signed_state")) as [payload|].
  2: { eexists _, _. split; [reflexivity|]. split; [done|]. split; [done|].
       left. cbn. by rewrite lookup_delete_eq. }
  destruct (json_loads payload) as [state|] eqn:Hstate.
  2: { by eexists _, _. }
  eexists _, _. split; [reflexivity|]. split; [done|]. split; [done|].
  right. exists payload, state. cbn. by rewrite lookup_insert_eq.
Qed.

(** The fields of the authentication form, cleaned. *)
Lemma assertion_clean_fields (self : t) (w : World RL B) (d : gmap string string) :
  data (form self) = Some d →
  ∃ r self1,
    _clean_fields (self, w) = (r, (self1, w)) ∧
    user self1 = user self ∧
    match r with
    | Ok _ =>
        (cleaned_data (form self1) !! "signed_state" = None ∨
         ∃ payload state,
           signer_unsign (submitted d "signed_state") = Some payload ∧
           json_loads payload = Some state ∧
           cleaned_data (form self1) !! "signed_state" = Some (VJson state)) ∧
        (cleaned_data (form self1) !! "credential" = None ∨
         ∃ jc c,
           json_loads (submitted d "credential") = Some jc ∧
           parse_authentication_credential jc = Ok c ∧
           cleaned_data (form self1) !! "credential"
           = Some (VAuthenticationCredential c))
    | Raise e => is_ValidationError e = false
    end.
Proof.
  intros Hd. unfold _clean_fields. cbn [declared_fields form_class clean_fields_loop].
  unfold bind at 1.
  destruct (assertion_signed_state_field self w d Hd) as (r1 & s1 & -> & Hu1 & Hd1 & Hr1).
  destruct r1 as [[]|e]; [|by eexists _, _].
  unfold bind at 1.
  destruct (assertion_credential_field s1 w d Hd1) as (r2 & s2 & -> & Hu2 & Hr2).
  destruct r2 as [[]|e]; [|eexists _, _; split; [done|]; split; [congruence|done]].
  unfold ret. eexists _, _. split; [reflexivity|]. split; [congruence|].
  destruct Hr2 as [Hs Hc]. rewrite Hs. done.
Qed.

(** [clean] once the credential is in [cleaned_data]: the verifier is
    called when the state is there and true, and not otherwise. *)
Lemma assertion_clean_with_credential (self : t) (w : World RL B)
    (c : AuthenticationCredential) :
  cleaned_data (form self) !! "credential" = Some (VAuthenticationCredential c) →
  let state :=
    match cleaned_data (form self) !! "signed_state" with Some v => v | None => VNone end in
  clean (self, w) =
    if truthy state then
      match complete_authentication state (get_credentials (user self) (backend w))
              (VAuthenticationCredential c) (backend w) with
      | (Ok ad, b) =>
          (Ok (<["authenticator_data" := VAuthenticatorData ad]> (cleaned_data (form self))),
           (having_cleaned "authenticator_data" (VAuthenticatorData ad) self,
            record (EvCompleteAuthentication state (VAuthenticationCredential c))
              (set_backend b w)))
      | (Raise e, b) =>
          (Raise e,
           (self,
            record (EvCompleteAuthentication state (VAuthenticationCredential c))
              (set_backend b w)))
      end
    else (Ok (cleaned_data (form self)), (self, w)).
Proof.
  intros Hc. cbn zeta. unfold clean. run. cbn [base form_object]. rewrite Hc. cbn.
  rewrite andb_true_r.
  destruct (truthy _); cbn; [|done].
  rewrite Hc. unfold call_complete_authentication. cbn.
  by destruct (complete_authentication _ _ _ _) as [[ad|e] b].
Qed.

(** [full_clean] on a bound authentication form: the verifier is called at
    most once, with a state decoded from a token that verified and a
    credential parsed from the submission. *)
Lemma assertion_full_clean_log (self : t) (w : World RL B) (d : gmap string string) :
  data (form self) = Some d →
  ∃ r self' w',
    full_clean (self, w) = (r, (self', w')) ∧
    (log w' = log w ∨
     ∃ payload state jc c,
       signer_unsign (submitted d "signed_state") = Some payload ∧
       json_loads payload = Some state ∧
       json_truthy state = true ∧
       json_loads (submitted d "credential") = Some jc ∧
       parse_authentication_credential jc = Ok c ∧
       log w'
       = (log w ++ [EvCompleteAuthentication (VJson state) (VAuthenticationCredential c)])%list).
Proof.
  intros Hd.
  rewrite (full_clean_bound _ _ d) by (apply AuthenticateWebAuthnForm_lawful || done).
  destruct (assertion_clean_fields (reset_for_cleaning self) w d) as (r & s1 & -> & Hu & Hr);
    [done|].
  destruct r as [[]|e]; [|eexists _, _, _; split; [reflexivity|by left]].
  destruct Hr as [Hstate Hcred].
  unfold _clean_form. cbn [form_clean form_class]. unfold try_except, bind.
  destruct Hcred as [Hnone|(jc & c & Hjc & Hparse & Hc)].
  { rewrite clean_without_credential by done. eexists _, _, _. split; [reflexivity|by left]. }
  rewrite (assertion_clean_with_credential s1 w c Hc). cbn zeta.
  destruct Hstate as [Hnone|(payload & state & Hun & Hload & Hs)].
  { rewrite Hnone. cbn. eexists _, _, _. split; [reflexivity|by left]. }
  rewrite Hs. cbn [truthy].
  destruct (json_truthy state) eqn:Htruthy.
  2: { eexists _, _, _. split; [reflexivity|by left]. }
  destruct (complete_authentication _ _ _ _) as [[ad|e] b].
  - eexists _, _, _. split; [reflexivity|]. right. by exists payload, state, jc, c.
  - destruct e; eexists _, _, _; (split; [reflexivity|]); right;
      by exists payload, state, jc, c.
Qed.

(** X13.  [AuthenticateWebAuthnForm]: whatever is submitted, the
    verifier is called at most once, and when it is called the state it
    gets is the decoded payload of the submitted token, whose signature
    verified. *)
Theorem authentication_verifier_gets_verified_state
    (u : User) (d : gmap string string) (initial : gmap string PyVal) (w : World RL B) :
  let out := full_clean (__init__ u (Some d) initial w) in
  log (snd (snd out)) = log w ∨
  ∃ payload state jc c,
    signer_unsign (submitted d "signed_state") = Some payload ∧
    json_loads payload = Some state ∧
    json_truthy state = true ∧
    json_loads (submitted d "credential") = Some jc ∧
    parse_authentication_credential jc = Ok c ∧
    log (snd (snd out))
    = (log w ++ [EvCompleteAuthentication (VJson state) (VAuthenticationCredential c)])%list.
Proof.
  cbn zeta.
  destruct (assertion_init u (Some d) initial w) as (Hd & _ & Hlog & _).
  destruct (__init__ u (Some d) initial w) as [self w0]. cbn [fst snd] in *.
  rewrite <- Hlog.
  destruct (assertion_full_clean_log self w0 d Hd) as (r & self' & w' & -> & Hcases).
  exact Hcases.
Qed.

(** The [credential] turn on a credential that parses. *)
Lemma assertion_credential_field_parsed (self : t) (w : World RL B) (d : gmap string string)
    (jc : json) (c : AuthenticationCredential) :
  data (form self) = Some d →
  String.eqb (submitted d "credential") "" = false →
  has_null (submitted d "credential") = false →
  json_loads (submitted d "credential") = Some jc →
  parse_authentication_credential jc = Ok c →
  clean_one_field "credential" (CharField true) (self, w)
  = (Ok tt, (having_cleaned "credential" (VAuthenticationCredential c)
               (having_cleaned "credential" (VStr (submitted d "credential")) self), w)).
Proof.
  intros Hd Hne Hnull Hjc Hparse. rewrite (clean_one_field_outcome _ _ _ _ d) by done.
  cbn [clean_hook form_class String.eqb Ascii.eqb Bool.eqb].
  unfold field_clean. fold (submitted d "credential"). rewrite Hne, Hnull.
  unfold clean_credential. run. cbn [base with_base form_object form having_cleaned].
  cbn. rewrite lookup_insert_eq. cbn. rewrite Hjc. cbn. by rewrite Hparse.
Qed.

(** The [signed_state] turn on a token that verifies and decodes. *)
Lemma assertion_signed_state_field_decoded (self : t) (w : World RL B)
    (d : gmap string string) (payload : string) (state : json) :
  data (form self) = Some d →
  String.eqb (submitted d "signed_state") "" = false →
  has_null (submitted d "signed_state") = false →
  signer_unsign (submitted d "signed_state") = Some payload →
  json_loads payload = Some state →
  clean_one_field "signed_state" (CharField false) (self, w)
  = (Ok tt, (having_cleaned "signed_state" (VJson state)
               (having_cleaned "signed_state" (VStr (submitted d "signed_state")) self), w)).
Proof.
  intros Hd Hne Hnull Hun Hload. rewrite (clean_one_field_outcome _ _ _ _ d) by done.
  cbn [clean_hook form_class String.eqb Ascii.eqb Bool.eqb].
  unfold field_clean. fold (submitted d "signed_state"). rewrite Hne, Hnull.
  unfold clean_signed_state.
  rewrite (clean_signed_state_body_outcome _ _ (submitted d "signed_state"))
    by (cbn; by rewrite lookup_insert_eq).
  by rewrite Hun, Hload.
Qed.

(** X14.  An authentication submission that carries a token that
    verifies, a state that decodes, a credential that parses and that the
    verifier accepts validates without errors; [cleaned_data] then has the
    state, the parsed credential and the verifier's authenticator data. *)
Theorem accepted_assertion_validates
    (u : User) (d : gmap string string) (initial : gmap string PyVal) (w : World RL B)
    (payload : string) (state jc : json) (c : AuthenticationCredential)
    (ad : AuthenticatorData) (b : B) :
  let start := __init__ u (Some d) initial w in
  String.eqb (submitted d "signed_state") "" = false →
  has_null (submitted d "signed_state") = false →
  signer_unsign (submitted d "signed_state") = Some payload →
  json_loads payload = Some state →
  json_truthy state = true →
  String.eqb (submitted d "credential") "" = false →
  has_null (submitted d "credential") = false →
  json_loads (submitted d "credential") = Some jc →
  parse_authentication_credential jc = Ok c →
  complete_authentication (VJson state) (get_credentials u (backend (snd start)))
    (VAuthenticationCredential c) (backend (snd start)) = (Ok ad, b) →
  ∃ self',
    full_clean start
    = (Ok tt,
       (self',
        record (EvCompleteAuthentication (VJson state) (VAuthenticationCredential c))
          (set_backend b (snd start)))) ∧
    errors_of (form self') = ∅ ∧
    cleaned_data (form self') !! "signed_state" = Some (VJson state) ∧
    cleaned_data (form self') !! "credential" = Some (VAuthenticationCredential c) ∧
    cleaned_data (form self') !! "authenticator_data" = Some (VAuthenticatorData ad).
Proof.
  cbn zeta. intros Hne1 Hnull1 Hun Hload Htruthy Hne2 Hnull2 Hjc Hparse.
  destruct (assertion_init u (Some d) initial w) as (Hd & Hu & _ & _).
  destruct (__init__ u (Some d) initial w) as [self w0]. cbn [fst snd] in *.
  intros Hverdict.
  rewrite (full_clean_bound _ _ d) by (apply AuthenticateWebAuthnForm_lawful || done).
  unfold _clean_fields. cbn [declared_fields form_class clean_fields_loop].
  unfold bind at 1.
  rewrite (assertion_signed_state_field_decoded _ _ d payload state) by done.
  unfold bind at 1.
  rewrite (assertion_credential_field_parsed _ _ d jc c) by done.
  unfold ret, _clean_form. cbn [form_clean form_class]. unfold try_except, bind.
  rewrite (assertion_clean_with_credential _ _ c) by (cbn; by rewrite lookup_insert_eq).
  cbn zeta. cbn [having_cleaned with_base form_object form user reset_for_cleaning
                 cleaned_data set_cleaned_data base].
  rewrite !lookup_insert_ne, !lookup_insert_eq by done. cbn [truthy]. rewrite Htruthy.
  rewrite Hu, Hverdict.
  eexists. split; [reflexivity|]. cbn.
  rewrite lookup_insert_eq, !lookup_insert_ne, !lookup_insert_eq by done. done.
Qed.

(** X15.  The token [AuthenticateWebAuthnForm.__init__] puts into
    [initial] is a token [clean_signed_state] takes, on any later form, and
    it decodes to the state [begin_authentication] gave, provided the
    signer and the JSON codec round-trip on it. *)
Theorem issued_authentication_state_round_trip
    (u : User) (d : option (gmap string string)) (kw : gmap string PyVal)
    (w : World RL B) (later : t) (w2 : World RL B) :
  let state := snd (fst (begin_authentication u (backend w))) in
  let token := signer_sign (json_dumps state) in
  signer_unsign token = Some (json_dumps state) →
  json_loads (json_dumps state) = Some state →
  initial (form (fst (__init__ u d kw w))) !! "signed_state" = Some (VStr token) ∧
  clean_signed_state (having_cleaned "signed_state" (VStr token) later, w2)
  = (Ok (VJson state), (having_cleaned "signed_state" (VStr token) later, w2)).
Proof.
  cbn zeta. intros Hsign Hjson. split.
  - unfold __init__. destruct (begin_authentication u (backend w)) as [[ad state] b].
    cbn. unfold sign_state. by rewrite lookup_insert_eq.
  - unfold clean_signed_state.
    rewrite (clean_signed_state_body_outcome _ _
               (signer_sign (json_dumps (snd (fst (begin_authentication u (backend w)))))))
      by (cbn; by rewrite lookup_insert_eq).
    by rewrite Hsign, Hjson.
Qed.
End AuthenticateWebAuthnFormWhole.

(** ** AddWebAuthnForm, as a whole *)

Section AddWebAuthnFormWhole.
Context {RL B : Type} `{!RateLimit RL} `{!Services B}.
Import AddWebAuthnForm.

Lemma registration_init (u : User) (d : option (gmap string string))
    (kw : gmap string PyVal) (w : World RL B) :
  data (form (fst (__init__ u d kw w))) = d ∧
  log (snd (__init__ u d kw w)) = log w ∧
  limiter (snd (__init__ u d kw w)) = limiter w.
Proof.
  unfold __init__. by destruct (begin_registration (backend w)) as [[rd state] b].
Qed.

(** [clean] when the credential field has failed: nothing is checked,
    nobody is called. *)
Lemma registration_clean_without_credential (self : t) (w : World RL B) :
  cleaned_data (form self) !! "credential" = None →
  clean (self, w) = (Ok (cleaned_data (form self)), (self, w)).
Proof.
  intros Hc. unfold clean. run. cbn [base form_object]. by rewrite Hc.
Qed.

(** [clean] with a parsed credential, in all its ways. *)
Lemma registration_clean_with_credential (self : t) (w : World RL B)
    (c : RegistrationCredential) :
  cleaned_data (form self) !! "credential" = Some (VRegistrationCredential c) →
  let state :=
    match cleaned_data (form self) !! "signed_state" with Some v => v | None => VNone end in
  let passwordless :=
    match cleaned_data (form self) !! "passwordless" with Some v => v | None => VNone end in
  let flagged :=
    if truthy passwordless && negb (is_user_verified (auth_data (attestation_object c)))
    then with_base (BaseForm_add_error None PasswordlessUnsupported (form self)) self
    else self in
  clean (self, w) =
    if truthy state then
      match complete_registration state (VRegistrationCredential c) (backend w) with
      | (Ok ad, b) =>
          (Ok (<["authenticator_data" := VAuthenticatorData ad]> (cleaned_data (form flagged))),
           (having_cleaned "authenticator_data" (VAuthenticatorData ad) flagged,
            record (EvCompleteRegistration state (VRegistrationCredential c))
              (set_backend b w)))
      | (Raise e, b) =>
          (Raise e,
           (flagged,
            record (EvCompleteRegistration state (VRegistrationCredential c))
              (set_backend b w)))
      end
    else (Ok (cleaned_data (form flagged)), (flagged, w)).
Proof.
  intros Hc. cbn zeta. unfold clean. run. cbn [base form_object]. rewrite Hc. cbn.
  rewrite andb_true_r.
  destruct (truthy match cleaned_data (form self) !! "passwordless" with
                   | Some v => v | None => VNone end); cbn.
  - destruct (is_user_verified _); cbn.
    + destruct (truthy _); cbn; [|done].
      unfold call_complete_registration. cbn.
      by destruct (complete_registration _ _ _) as [[ad|e] b].
    + destruct (truthy _); cbn; [|done].
      unfold call_complete_registration. cbn.
      by destruct (complete_registration _ _ _) as [[ad|e] b].
  - destruct (truthy _); cbn; [|done].
    unfold call_complete_registration. cbn.
    by destruct (complete_registration _ _ _) as [[ad|e] b].
Qed.

(** X17.  With a parsed credential in [cleaned_data],
    [AddWebAuthnForm.clean] adds the passwordless error exactly when
    passwordless was asked for and the credential's user-verification flag
    is off, and adds no other non-field error. *)
Theorem passwordless_error_exactly_when_unverified
    (self : t) (w : World RL B) (c : RegistrationCredential) :
  let out := clean (self, w) in
  let passwordless :=
    match cleaned_data (form self) !! "passwordless" with Some v => v | None => VNone end in
  cleaned_data (form self) !! "credential" = Some (VRegistrationCredential c) →
  non_field_errors (form (fst (snd out)))
  = if truthy passwordless && negb (is_user_verified (auth_data (attestation_object c)))
    then (non_field_errors (form self) ++ [PasswordlessUnsupported])%list
    else non_field_errors (form self).
Proof.
  cbn zeta. intros Hc. rewrite (registration_clean_with_credential self w c Hc). cbn zeta.
  destruct (truthy match cleaned_data (form self) !! "passwordless" with
                   | Some v => v | None => VNone end
            && negb (is_user_verified (auth_data (attestation_object c)))).
  - destruct (truthy _); [destruct (complete_registration _ _ _) as [[ad|e] b]|];
      cbn; apply non_field_errors_add_error.
  - destruct (truthy _); [destruct (complete_registration _ _ _) as [[ad|e] b]|]; done.
Qed.

(** The turns of [name] and [passwordless]: they always come back, with
    the world as it was. *)
Lemma registration_name_field (self : t) (w : World RL B) (d : gmap string string) :
  data (form self) = Some d →
  ∃ s1, clean_one_field "name" (CharField false) (self, w) = (Ok tt, (s1, w)) ∧
        data (form s1) = Some d ∧
        field_errors "credential" (form s1) = field_errors "credential" (form self).
Proof.
  intros Hd. rewrite (clean_one_field_outcome _ _ _ _ d) by done.
  cbn [clean_hook form_class String.eqb Ascii.eqb Bool.eqb].
  unfold field_clean.
  destruct (String.eqb _ ""); [|destruct (has_null _)]; eexists;
    (split; [reflexivity|]); (split; [done|]); try done.
  unfold field_errors, errors_of at 1. cbn. by rewrite lookup_insert_ne.
Qed.

Lemma registration_passwordless_field (self : t) (w : World RL B) (d : gmap string string) :
  data (form self) = Some d →
  ∃ s1, clean_one_field "passwordless" (BooleanField false) (self, w) = (Ok tt, (s1, w)) ∧
        data (form s1) = Some d ∧
        field_errors "credential" (form s1) = field_errors "credential" (form self).
Proof.
  intros Hd. rewrite (clean_one_field_outcome _ _ _ _ d) by done.
  cbn [clean_hook form_class String.eqb Ascii.eqb Bool.eqb].
  unfold field_clean. rewrite andb_false_r. by eexists.
Qed.

(** The [credential] turn. *)
Lemma registration_credential_field (self : t) (w : World RL B) (d : gmap string string) :
  data (form self) = Some d →
  ∃ r s1,
    clean_one_field "credential" (CharField true) (self, w) = (r, (s1, w)) ∧
    data (form s1) = Some d ∧
    match r with
    | Ok _ =>
        (cleaned_data (form s1) !! "credential" = None ∨
         ∃ jc c,
           json_loads (submitted d "credential") = Some jc ∧
           parse_registration_credential jc = Ok c ∧
           cleaned_data (form s1) !! "credential" = Some (VRegistrationCredential c)) ∧
        (String.eqb (submitted d "credential") "" = true →
         cleaned_data (form s1) !! "credential" = None ∧
         field_errors "credential" (form s1)
         = (field_errors "credential" (form self) ++ [FieldErrorMessage "required"])%list)
    | Raise e =>
        is_ValidationError e = false ∧ String.eqb (submitted d "credential") "" = false
    end.
Proof.
  intros Hd. rewrite (clean_one_field_outcome _ _ _ _ d) by done.
  cbn [clean_hook form_class String.eqb Ascii.eqb Bool.eqb].
  unfold field_clean. fold (submitted d "credential").
  destruct (String.eqb (submitted d "credential") "") eqn:Hblank.
  { eexists _, _. split; [reflexivity|]. split; [done|]. cbn.
    rewrite lookup_delete_eq. split; [by left|]. intros _. split; [done|].
    unfold field_errors, errors_of. cbn. by rewrite lookup_insert_eq. }
  destruct (has_null (submitted d "credential")).
  { eexists _, _. split; [reflexivity|]. split; [done|]. cbn.
    rewrite lookup_delete_eq. split; [by left|done]. }
  unfold clean_credential. run. cbn [base with_base form_object form having_cleaned].
  cbn. rewrite lookup_insert_eq. cbn.
  destruct (json_loads (submitted d "credential")) as [jc|]; cbn.
  2: { by eexists _, _. }
  destruct (parse_registration_credential jc) as [c|e] eqn:Hparse; cbn.
  - eexists _, _. split; [reflexivity|]. split; [done|]. cbn.
    split; [|done]. right. exists jc, c. by rewrite lookup_insert_eq.
  - destruct e; try by eexists _, _.
    eexists _, _. split; [reflexivity|]. split; [done|]. cbn.
    split; [|done]. left. by rewrite lookup_delete_eq.
Qed.

(** The [signed_state] turn. *)
Lemma registration_signed_state_field (self : t) (w : World RL B) (d : gmap string string) :
  data (form self) = Some d →
  ∃ r s1,
    clean_one_field "signed_state" (CharField true) (self, w) = (r, (s1, w)) ∧
    match r with
    | Ok _ =>
        cleaned_data (form s1) !! "credential" = cleaned_data (form self) !! "credential" ∧
        field_errors "credential" (form s1) = field_errors "credential" (form self) ∧
        (cleaned_data (form s1) !! "signed_state" = None ∨
         ∃ payload state,
           signer_unsign (submitted d "signed_state") = Some payload ∧
           json_loads payload = Some state ∧
           cleaned_data (form s1) !! "signed_state" = Some (VJson state))
    | Raise e => ∃ doc, e = JSONDecodeError doc
    end.
Proof.
  intros Hd. rewrite (clean_one_field_outcome _ _ _ _ d) by done.
  cbn [clean_hook form_class String.eqb Ascii.eqb Bool.eqb].
  assert (∀ m, field_errors "credential"
                 (BaseForm_add_error (Some "signed_state") m (form self))
               = field_errors "credential" (form self)) as Herr.
  { intros m. unfold field_errors, errors_of at 1. cbn. by rewrite lookup_insert_ne. }
  unfold field_clean. fold (submitted d "signed_state").
  destruct (String.eqb (submitted d "signed_state") "").
  { eexists _, _. split; [reflexivity|]. cbn. rewrite lookup_delete_ne by done.
    split; [done|]. split; [apply Herr|]. left. by rewrite lookup_delete_eq. }
  destruct (has_null (submitted d "signed_state")).
  { eexists _, _. split; [reflexivity|]. cbn. rewrite lookup_delete_ne by done.
    split; [done|]. split; [apply Herr|]. left. by rewrite lookup_delete_eq. }
  unfold clean_signed_state.
  rewrite (clean_signed_state_body_outcome _ _ (submitted d "signed_state"))
    by (cbn; by rewrite lookup_insert_eq).
  destruct (signer_unsign (submitted d "signed_state")) as [payload|].
  2: { eexists _, _. split; [reflexivity|]. cbn.
       rewrite lookup_delete_ne, lookup_insert_ne by done.
       split; [done|]. split; [|left; by rewrite lookup_delete_eq].
       unfold field_errors, errors_of. cbn. by rewrite lookup_insert_ne. }
  destruct (json_loads payload) as [state|] eqn:Hstate.
  2: { eexists _, _. split; [reflexivity|]. by eexists. }
  eexists _, _. split; [reflexivity|]. cbn. rewrite !lookup_insert_ne by done.
  split; [done|]. split; [done|].
  right. exists payload, state. by rewrite lookup_insert_eq.
Qed.

(** The fields of the registration form, cleaned. *)
Lemma registration_clean_fields (self : t) (w : World RL B) (d : gmap string string) :
  data (form self) = Some d →
  field_errors "credential" (form self) = [] →
  ∃ r self1,
    _clean_fields (self, w) = (r, (self1, w)) ∧
    match r with
    | Ok _ =>
        (cleaned_data (form self1) !! "signed_state" = None ∨
         ∃ payload state,
           signer_unsign (submitted d "signed_state") = Some payload ∧
           json_loads payload = Some state ∧
           cleaned_data (form self1) !! "signed_state" = Some (VJson state)) ∧
        (cleaned_data (form self1) !! "credential" = None ∨
         ∃ jc c,
           json_loads (submitted d "credential") = Some jc ∧
           parse_registration_credential jc = Ok c ∧
           cleaned_data (form self1) !! "credential" = Some (VRegistrationCredential c)) ∧
        (String.eqb (submitted d "credential") "" = true →
         cleaned_data (form self1) !! "credential" = None ∧
         field_errors "credential" (form self1) = [FieldErrorMessage "required"])
    | Raise e =>
        is_ValidationError e = false ∧
        (String.eqb (submitted d "credential") "" = true → ∃ doc, e = JSONDecodeError doc)
    end.
Proof.
  intros Hd Hnoerr. unfold _clean_fields. cbn [declared_fields form_class clean_fields_loop].
  unfold bind at 1.
  destruct (registration_name_field self w d Hd) as (s1 & -> & Hd1 & He1).
  unfold bind at 1.
  destruct (registration_passwordless_field s1 w d Hd1) as (s2 & -> & Hd2 & He2).
  unfold bind at 1.
  destruct (registration_credential_field s2 w d Hd2) as (r3 & s3 & -> & Hd3 & Hr3).
  destruct r3 as [[]|e]; [|eexists _, _; split; [reflexivity|]; split; [apply Hr3|];
                            intros Hblank; destruct Hr3 as [_ Hne]; congruence].
  destruct Hr3 as [Hcred Hblank].
  unfold bind at 1.
  destruct (registration_signed_state_field s3 w d Hd3) as (r4 & s4 & -> & Hr4).
  destruct r4 as [[]|e].
  2: { destruct Hr4 as [doc ->]. eexists _, _. split; [reflexivity|].
       split; [done|]. intros _. by eexists. }
  destruct Hr4 as (Hc4 & He4 & Hstate).
  unfold ret. eexists _, _. split; [reflexivity|].
  rewrite Hc4, He4. split; [done|]. split; [done|].
  intros Hb. destruct (Hblank Hb) as [Hnone Herr]. split; [done|].
  by rewrite Herr, He2, He1, Hnoerr.
Qed.

(** [full_clean] on a bound registration form. *)
Lemma registration_full_clean (self : t) (w : World RL B) (d : gmap string string) :
  data (form self) = Some d →
  ∃ r self' w',
    full_clean (self, w) = (r, (self', w')) ∧
    (String.eqb (submitted d "credential") "" = true →
     w' = w ∧
     ((r = Ok tt ∧ field_errors "credential" (form self') = [FieldErrorMessage "required"]) ∨
      ∃ doc, r = Raise (JSONDecodeError doc))) ∧
    (log w' = log w ∨
     ∃ payload state jc c,
       signer_unsign (submitted d "signed_state") = Some payload ∧
       json_loads payload = Some state ∧
       json_truthy state = true ∧
       json_loads (submitted d "credential") = Some jc ∧
       parse_registration_credential jc = Ok c ∧
       log w'
       = (log w ++ [EvCompleteRegistration (VJson state) (VRegistrationCredential c)])%list).
Proof.
  intros Hd.
  rewrite (full_clean_bound _ _ d) by (apply AddWebAuthnForm_lawful || done).
  destruct (registration_clean_fields (reset_for_cleaning self) w d) as (r & s1 & -> & Hr);
    [done|done|].
  destruct r as [[]|e].
  2: { eexists _, _, _. split; [reflexivity|]. split; [|by left].
       intros Hb. split; [done|]. right. destruct Hr as [_ Hr].
       destruct (Hr Hb) as [doc ->]. by eexists. }
  destruct Hr as (Hstate & Hcred & Hblank).
  unfold _clean_form. cbn [form_clean form_class]. unfold try_except, bind.
  destruct Hcred as [Hnone|(jc & c & Hjc & Hparse & Hc)].
  { rewrite registration_clean_without_credential by done. cbn.
    eexists _, _, _. split; [reflexivity|]. split; [|by left].
    intros Hb. split; [done|]. left. split; [done|]. cbn. by apply Hblank. }
  assert (String.eqb (submitted d "credential") "" = false) as Hne.
  { destruct (String.eqb (submitted d "credential") ""); [|done].
    destruct (Hblank eq_refl) as [Hnone _]. congruence. }
  rewrite Hne.
  rewrite (registration_clean_with_credential s1 w c Hc). cbn zeta.
  destruct Hstate as [Hnone|(payload & state & Hun & Hload & Hs)].
  { rewrite Hnone. cbn. eexists _, _, _. split; [reflexivity|]. split; [done|by left]. }
  rewrite Hs. cbn [truthy].
  destruct (json_truthy state) eqn:Htruthy.
  2: { cbn. eexists _, _, _. split; [reflexivity|]. split; [done|by left]. }
  destruct (complete_registration _ _ _) as [[ad|e] b].
  - cbn. eexists _, _, _. split; [reflexivity|]. split; [done|].
    right. by exists payload, state, jc, c.
  - destruct e; eexists _, _, _; (split; [reflexivity|]); (split; [done|]); right;
      by exists payload, state, jc, c.
Qed.

(** X19.  [AddWebAuthnForm]: whatever is submitted, the verifier is
    called at most once, and when it is called the state it gets is the
    decoded payload of the submitted token, whose signature verified. *)
Theorem registration_verifier_gets_verified_state
    (u : User) (d : gmap string string) (kw : gmap string PyVal) (w : World RL B) :
  let out := full_clean (__init__ u (Some d) kw w) in
  log (snd (snd out)) = log w ∨
  ∃ payload state jc c,
    signer_unsign (submitted d "signed_state") = Some payload ∧
    json_loads payload = Some state ∧
    json_truthy state = true ∧
    json_loads (submitted d "credential") = Some jc ∧
    parse_registration_credential jc = Ok c ∧
    log (snd (snd out))
    = (log w ++ [EvCompleteRegistration (VJson state) (VRegistrationCredential c)])%list.
Proof.
  cbn zeta.
  destruct (registration_init u (Some d) kw w) as (Hd & Hlog & _).
  destruct (__init__ u (Some d) kw w) as [self w0]. cbn [fst snd] in *.
  rewrite <- Hlog.
  destruct (registration_full_clean self w0 d Hd) as (r & self' & w' & -> & _ & Hcases).
  exact Hcases.
Qed.

(** X18.  A registration submission without a credential: the
    verifier is not called and nothing in the world changes; the form
    comes back with the required error on the credential, unless the
    token's payload fails to decode.  Unlike [AuthenticateWebAuthnForm],
    no [KeyError]. *)
Theorem registration_without_credential_completes
    (u : User) (d : gmap string string) (kw : gmap string PyVal) (w : World RL B) :
  let start := __init__ u (Some d) kw w in
  let out := full_clean start in
  String.eqb (submitted d "credential") "" = true →
  snd (snd out) = snd start ∧
  ((fst out = Ok tt ∧
    field_errors "credential" (form (fst (snd out))) = [FieldErrorMessage "required"]) ∨
   ∃ doc, fst out = Raise (JSONDecodeError doc)).
Proof.
  cbn zeta. intros Hblank.
  destruct (registration_init u (Some d) kw w) as (Hd & _ & _).
  destruct (__init__ u (Some d) kw w) as [self w0]. cbn [fst snd] in *.
  destruct (registration_full_clean self w0 d Hd) as (r & self' & w' & -> & Hb & _).
  destruct (Hb Hblank) as [-> Hr]. cbn. split; [done|].
  destruct Hr as [[-> Herr]|[doc ->]]; [by left|right; by eexists].
Qed.

(** A text field on a value without null characters, blank allowed or not
    blank. *)
Lemma char_field_clean (required : bool) (d : gmap string string) (name : string) :
  has_null (submitted d name) = false →
  (required = false ∨ String.eqb (submitted d name) "" = false) →
  field_clean (CharField required) (d !! name) = Ok (VStr (submitted d name)).
Proof.
  intros Hnull Hreq. unfold field_clean. fold (submitted d name). rewrite Hnull.
  destruct (String.eqb_spec (submitted d name) "") as [Heq|_]; [|done].
  destruct Hreq as [->|?]; [by rewrite Heq|done].
Qed.

(** X20.  A registration submission that carries a token that verifies,
    a state that decodes, a credential that parses and that the verifier
    accepts, with passwordless not ticked, validates without errors;
    [cleaned_data] has the name, passwordless as false and the verifier's
    authenticator data. *)
Theorem accepted_registration_validates
    (u : User) (d : gmap string string) (kw : gmap string PyVal) (w : World RL B)
    (payload : string) (state jc : json) (c : RegistrationCredential)
    (ad : AuthenticatorData) (b : B) :
  let start := __init__ u (Some d) kw w in
  has_null (submitted d "name") = false →
  d !! "passwordless" = None →
  String.eqb (submitted d "credential") "" = false →
  has_null (submitted d "credential") = false →
  json_loads (submitted d "credential") = Some jc →
  parse_registration_credential jc = Ok c →
  String.eqb (submitted d "signed_state") "" = false →
  has_null (submitted d "signed_state") = false →
  signer_unsign (submitted d "signed_state") = Some payload →
  json_loads payload = Some state →
  json_truthy state = true →
  complete_registration (VJson state) (VRegistrationCredential c) (backend (snd start))
  = (Ok ad, b) →
  ∃ self',
    full_clean start
    = (Ok tt,
       (self',
        record (EvCompleteRegistration (VJson state) (VRegistrationCredential c))
          (set_backend b (snd start)))) ∧
    errors_of (form self') = ∅ ∧
    cleaned_data (form self') !! "name" = Some (VStr (submitted d "name")) ∧
    cleaned_data (form self') !! "passwordless" = Some (VBool false) ∧
    cleaned_data (form self') !! "authenticator_data" = Some (VAuthenticatorData ad).
Proof.
  cbn zeta. intros Hnull0 Hpw Hne2 Hnull2 Hjc Hparse Hne1 Hnull1 Hun Hload Htruthy.
  destruct (registration_init u (Some d) kw w) as (Hd & _ & _).
  destruct (__init__ u (Some d) kw w) as [self w0]. cbn [fst snd] in *.
  intros Hverdict.
  rewrite (full_clean_bound _ _ d) by (apply AddWebAuthnForm_lawful || done).
  unfold _clean_fields. cbn [declared_fields form_class clean_fields_loop].
  unfold bind at 1. rewrite (clean_one_field_outcome _ _ _ _ d) by done.
  cbn [clean_hook form_class String.eqb Ascii.eqb Bool.eqb].
  rewrite char_field_clean by (done || by left).
  unfold bind at 1. rewrite (clean_one_field_outcome _ _ _ _ d) by done.
  cbn [clean_hook form_class String.eqb Ascii.eqb Bool.eqb].
  rewrite Hpw. cbn [field_clean negb andb].
  unfold bind at 1. rewrite (clean_one_field_outcome _ _ _ _ d) by done.
  cbn [clean_hook form_class String.eqb Ascii.eqb Bool.eqb].
  rewrite char_field_clean by (done || by right).
  assert (∀ (s : t) (w1 : World RL B),
            clean_credential (having_cleaned "credential" (VStr (submitted d "credential")) s, w1)
            = (Ok (VRegistrationCredential c),
               (having_cleaned "credential" (VStr (submitted d "credential")) s, w1)))
    as Hcredential.
  { intros s w1. unfold clean_credential. run.
    cbn [base with_base form_object form having_cleaned]. cbn.
    rewrite lookup_insert_eq. cbn. rewrite Hjc. cbn. by rewrite Hparse. }
  rewrite Hcredential.
  unfold bind at 1. rewrite (clean_one_field_outcome _ _ _ _ d) by done.
  cbn [clean_hook form_class String.eqb Ascii.eqb Bool.eqb].
  rewrite char_field_clean by (done || by right).
  unfold clean_signed_state.
  rewrite (clean_signed_state_body_outcome _ _ (submitted d "signed_state"))
    by (cbn; by rewrite lookup_insert_eq).
  rewrite Hun, Hload.
  unfold ret, _clean_form. cbn [form_clean form_class]. unfold try_except, bind.
  rewrite (registration_clean_with_credential _ _ c) by (cbn; by simplify_map_eq).
  cbn zeta. cbn [having_cleaned with_base form_object form user reset_for_cleaning
                 cleaned_data set_cleaned_data base].
  assert (∀ m : gmap string PyVal,
            <["signed_state":=VJson state]>
              (<["signed_state":=VStr (submitted d "signed_state")]>
                 (<["credential":=VRegistrationCredential c]>
                    (<["credential":=VStr (submitted d "credential")]>
                       (<["passwordless":=VBool false]> m)))) !! "passwordless"
            = Some (VBool false)) as Hpass by (intros; by simplify_map_eq).
  rewrite Hpass, lookup_insert_eq. cbn [truthy andb]. rewrite Htruthy, Hverdict.
  eexists. split; [reflexivity|]. cbn. split; [done|]. by simplify_map_eq.
Qed.

(** X21.  The token [AddWebAuthnForm.__init__] puts into [initial] is a
    token its [clean_signed_state] takes, on any later form, and it decodes
    to the state [begin_registration] gave, provided the signer and the
    JSON codec round-trip on it. *)
Theorem issued_registration_state_round_trip
    (u : User) (d : option (gmap string string)) (kw : gmap string PyVal)
    (w : World RL B) (later : t) (w2 : World RL B) :
  let state := snd (fst (begin_registration (backend w))) in
  let token := signer_sign (json_dumps state) in
  signer_unsign token = Some (json_dumps state) →
  json_loads (json_dumps state) = Some state →
  initial (form (fst (__init__ u d kw w))) !! "signed_state" = Some (VStr token) ∧
  clean_signed_state (having_cleaned "signed_state" (VStr token) later, w2)
  = (Ok (VJson state), (having_cleaned "signed_state" (VStr token) later, w2)).
Proof.
  cbn zeta. intros Hsign Hjson. split.
  - unfold __init__. destruct (begin_registration (backend w)) as [[rd state] b].
    cbn. unfold sign_state. by rewrite lookup_insert_eq.
  - unfold clean_signed_state.
    rewrite (clean_signed_state_body_outcome _ _
               (signer_sign (json_dumps (snd (fst (begin_registration (backend w)))))))
      by (cbn; by rewrite lookup_insert_eq).
    by rewrite Hsign, Hjson.
Qed.
End AddWebAuthnFormWhole.

(** ** Across the forms *)

Section AcrossForms.
Context {RL B : Type} `{!RateLimit RL} `{!Services B}.

(** The limiter after a run of [AuthenticateForm.clean_code]: the key of
    the user has been consumed, and cleared after that or not; no other
    call reaches the limiter. *)
Lemma clean_code_limiter (self : AuthenticateForm.t) (w : World RL B) :
  let key := AuthenticateForm.rate_limit_key (AuthenticateForm.user self) in
  let consumed := snd (ratelimit_consume "login_failed" key (limiter w)) in
  let after := limiter (snd (snd (AuthenticateForm.clean_code (self, w)))) in
  after = consumed ∨ after = ratelimit_clear "login_failed" key consumed.
Proof.
  cbn zeta. unfold AuthenticateForm.clean_code. run. unfold consume.
  destruct (ratelimit_consume _ _ (limiter w)) as [allowed r]. cbn.
  destruct allowed; cbn; [|by left].
  destruct (cleaned_data _ !! "code") as [code|]; cbn; [|by left].
  unfold query_authenticators. cbn.
  match goal with |- context [AuthenticateForm.clean_code_loop ?k ?c ?l (?s, ?w0)] =>
    pose proof (clean_code_loop_outcome k c l s w0) as Hloop;
    destruct (AuthenticateForm.clean_code_loop k c l (s, w0)) as [[v|e] [self' w']] end;
    cbn in *.
  - destruct Hloop as (_ & pre & a & post & _ & _ & _ & _ & _ & Hl & _). by right.
  - destruct Hloop as (_ & _ & _ & _ & Hl & _). by left.
Qed.

(** X12.  [DeactivateTOTPForm]: [is_valid] is the adapter's
    [can_delete_authenticator] on the authenticator of the form, for any
    submission; nothing in the world changes, and the one error there can
    be is the cannot-delete error among the non-field errors. *)
Theorem deactivation_is_the_adapters_decision
    (a : Authenticator) (d : gmap string string) (w : World RL B) :
  let out := is_valid (DeactivateTOTPForm.__init__ a (Some d), w) in
  fst out = Ok (can_delete_authenticator a (backend w)) ∧
  snd (snd out) = w ∧
  non_field_errors (DeactivateTOTPForm.form (fst (snd out)))
  = if can_delete_authenticator a (backend w) then [] else [CannotDeleteAuthenticator].
Proof.
  cbn zeta. unfold is_valid, full_clean, _clean_fields, _clean_form.
  cbn [declared_fields DeactivateTOTPForm.form_class clean_fields_loop form_clean].
  unfold DeactivateTOTPForm.clean. run.
  cbn [base with_base DeactivateTOTPForm.form_object DeactivateTOTPForm.form is_bound data
       BaseForm_init set_errors negb DeactivateTOTPForm.__init__].
  cbn.
  destruct (can_delete_authenticator a (backend w)); cbn; [done|].
  split; [|split; [done|]].
  - f_equal; try (apply bool_decide_eq_false_2; apply insert_non_empty).
  - unfold non_field_errors, BaseForm_add_error, errors_of. cbn.
    by rewrite lookup_insert_eq.
Qed.

(** X16.  A credential that is not JSON does not become an error of the
    field in either WebAuthn form: the decoder's error leaves
    [full_clean]. *)
Theorem credential_that_is_not_json_escapes
    (u : User) (d : gmap string string) (kw : gmap string PyVal) (w : World RL B) :
  String.eqb (submitted d "credential") "" = false →
  has_null (submitted d "credential") = false →
  json_loads (submitted d "credential") = None →
  (∃ doc, fst (full_clean (AuthenticateWebAuthnForm.__init__ u (Some d) kw w))
          = Raise (JSONDecodeError doc)) ∧
  fst (full_clean (AddWebAuthnForm.__init__ u (Some d) kw w))
  = Raise (JSONDecodeError (submitted d "credential")).
Proof.
  intros Hne Hnull Hjson. split.
  - destruct (d !! "credential") as [c|] eqn:Hc.
    + apply (malformed_credential_escapes_validation u d kw w c Hc);
        unfold submitted in *; by rewrite Hc in *.
    + unfold submitted in Hne. by rewrite Hc in Hne.
  - destruct (registration_init u (Some d) kw w) as (Hd & _ & _).
    destruct (AddWebAuthnForm.__init__ u (Some d) kw w) as [self w0]. cbn [fst snd] in *.
    rewrite (full_clean_bound _ _ d) by (apply AddWebAuthnForm_lawful || done).
    unfold _clean_fields.
    cbn [declared_fields AddWebAuthnForm.form_class clean_fields_loop].
    unfold bind at 1.
    destruct (registration_name_field (reset_for_cleaning self) w0 d) as (s1 & -> & Hd1 & _);
      [done|].
    unfold bind at 1.
    destruct (registration_passwordless_field s1 w0 d Hd1) as (s2 & -> & Hd2 & _).
    unfold bind at 1. rewrite (clean_one_field_outcome _ _ _ _ d) by done.
    cbn [clean_hook AddWebAuthnForm.form_class String.eqb Ascii.eqb Bool.eqb].
    rewrite char_field_clean by (done || by right).
    unfold AddWebAuthnForm.clean_credential. run.
    cbn [base with_base AddWebAuthnForm.form_object AddWebAuthnForm.form having_cleaned].
    cbn. rewrite lookup_insert_eq. cbn. by rewrite Hjson.
Qed.
End AcrossForms.

(** The budget limiter keeps one count for each key. *)
Lemma Budget_consume_other limit action key other used :
  other ≠ key →
  Budget.remaining limit action other (snd (Budget.consume limit action key used))
  = Budget.remaining limit action other used.
Proof.
  intros Hne. unfold Budget.consume, Budget.remaining.
  destruct (Budget.consumed action key used <? limit)%nat; [|done]. cbn.
  unfold Budget.consumed at 1. rewrite lookup_insert_ne; [done|]. congruence.
Qed.

Lemma Budget_clear_other limit action key other used :
  other ≠ key →
  Budget.remaining limit action other (Budget.clear action key used)
  = Budget.remaining limit action other used.
Proof.
  intros Hne. unfold Budget.remaining, Budget.consumed, Budget.clear.
  rewrite lookup_delete_ne; [done|]. congruence.
Qed.

(** X4.  With a limiter that keeps one budget for each key, a run of
    [AuthenticateForm.clean_code] for one user, however it ends, leaves
    the budget of a user with another primary key as it was: the keys of
    the two differ. *)
Theorem attempt_leaves_other_budgets_alone (limit : nat) {B : Type} `{!Services B}
    (self : AuthenticateForm.t) (other : User) (w : World (gmap (string * string) nat) B) :
  let out := AuthenticateForm.clean_code (RateLimit0 := Budget.rate_limit limit) (self, w) in
  let key := AuthenticateForm.rate_limit_key other in
  pk other ≠ pk (AuthenticateForm.user self) →
  key ≠ AuthenticateForm.rate_limit_key (AuthenticateForm.user self) ∧
  Budget.remaining limit "login_failed" key (limiter (snd (snd out)))
  = Budget.remaining limit "login_failed" key (limiter w).
Proof.
  cbn zeta. intros Hpk.
  assert (AuthenticateForm.rate_limit_key other
          ≠ AuthenticateForm.rate_limit_key (AuthenticateForm.user self)) as Hkey.
  { intros Heq. apply Hpk. by rewrite (rate_limit_key_inj _ _ Heq). }
  split; [exact Hkey|].
  destruct (clean_code_limiter (RateLimit0 := Budget.rate_limit limit) self w) as [-> | ->].
  - by apply Budget_consume_other.
  - cbn [ratelimit_clear ratelimit_consume Budget.rate_limit].
    rewrite Budget_clear_other by done. by apply Budget_consume_other.
Qed.

(** ** The theorems at concrete submissions *)

Section Witnesses.
Import Example.

(** Alice submits a wrong code: Bob's three attempts are all there. *)
Lemma attempt_leaves_other_budgets_alone_witness :
  Budget.remaining 3 "login_failed" (AuthenticateForm.rate_limit_key bob)
    (limiter (snd (snd (AuthenticateForm.clean_code (Scenario.login "000000", world)))))
  = Budget.remaining 3 "login_failed" (AuthenticateForm.rate_limit_key bob) (limiter world).
Proof.
  apply (attempt_leaves_other_budgets_alone 3 (Scenario.login "000000") bob world).
  cbn. lia.
Defined.

Lemma webauthn_only_user_cannot_authenticate_witness :
  fst (AuthenticateForm.clean_code (Scenario.login "123456", Walkthrough.keys_only))
  = Raise (ValidationError IncorrectCode).
Proof.
  apply (webauthn_only_user_cannot_authenticate
           (Scenario.login "123456") Walkthrough.keys_only (VStr "123456")).
  - intros a [<-|[<-|[]]]; cbn; [reflexivity|discriminate].
  - reflexivity.
  - reflexivity.
Defined.

Lemma blank_code_spends_no_attempt_witness :
  snd (snd (full_clean (AuthenticateForm.__init__ alice (Some Walkthrough.blank_login), world)))
  = world.
Proof.
  destruct (blank_code_spends_no_attempt alice Walkthrough.blank_login world)
    as (self' & H & _); [reflexivity|].
  by rewrite H.
Defined.

Lemma blank_code_keeps_pending_secret_witness :
  ActivateTOTPForm.secret
    (fst (snd (full_clean (Walkthrough.enrollment_form Walkthrough.blank_login, world))))
  = "pending".
Proof.
  destruct (blank_code_keeps_pending_secret
              (Walkthrough.enrollment_form Walkthrough.blank_login) world
              Walkthrough.blank_login)
    as (self' & H & Hsecret & _); [reflexivity|reflexivity|].
  by rewrite H.
Defined.

Lemma accepted_code_keeps_pending_secret_witness :
  ActivateTOTPForm.secret
    (fst (snd (full_clean (Walkthrough.enrollment_form Walkthrough.good_enrollment, world))))
  = "pending".
Proof.
  destruct (accepted_code_keeps_pending_secret
              (Walkthrough.enrollment_form Walkthrough.good_enrollment) world
              Walkthrough.good_enrollment " pending ")
    as (self' & H & Hsecret & _); [reflexivity..|].
  by rewrite H.
Defined.

Lemma accepted_assertion_validates_witness :
  fst (full_clean (AuthenticateWebAuthnForm.__init__ alice (Some Walkthrough.good_assertion)
                     ∅ world))
  = Ok tt.
Proof.
  destruct (accepted_assertion_validates alice Walkthrough.good_assertion ∅ world
              "7" (JNum 7) (JBool true) (MkAuthenticationCredential "")
              (MkAuthenticatorData "") store)
    as (self' & H & _); [reflexivity..|].
  by rewrite H.
Defined.

Lemma issued_authentication_state_round_trip_witness :
  initial (AuthenticateWebAuthnForm.form
             (fst (AuthenticateWebAuthnForm.__init__ alice None ∅ world)))
    !! "signed_state"
  = Some (VStr "7:1").
Proof.
  destruct (issued_authentication_state_round_trip alice None ∅ world
              (fst (Scenario.assertion ∅)) world) as [H _]; [reflexivity..|exact H].
Defined.

Lemma credential_that_is_not_json_escapes_witness :
  fst (full_clean (AddWebAuthnForm.__init__ alice (Some Walkthrough.malformed_assertion)
                     ∅ world))
  = Raise (JSONDecodeError "oops").
Proof.
  destruct (credential_that_is_not_json_escapes alice Walkthrough.malformed_assertion
              ∅ world) as [_ H]; [reflexivity..|exact H].
Defined.

Lemma passwordless_error_exactly_when_unverified_witness :
  non_field_errors
    (AddWebAuthnForm.form (fst (snd (AddWebAuthnForm.clean (Scenario.registration, world)))))
  = [PasswordlessUnsupported].
Proof.
  apply (passwordless_error_exactly_when_unverified
           Scenario.registration world Scenario.unverified_credential).
  reflexivity.
Defined.

Lemma registration_without_credential_completes_witness :
  snd (snd (full_clean (AddWebAuthnForm.__init__ alice (Some ∅) ∅ world)))
  = snd (AddWebAuthnForm.__init__ alice (Some ∅) ∅ world).
Proof.
  destruct (registration_without_credential_completes alice ∅ ∅ world) as [H _];
    [reflexivity|exact H].
Defined.

Lemma accepted_registration_validates_witness :
  fst (full_clean (AddWebAuthnForm.__init__ alice (Some Walkthrough.good_registration)
                     ∅ world))
  = Ok tt.
Proof.
  destruct (accepted_registration_validates alice Walkthrough.good_registration ∅ world
              "7" (JNum 7) (JBool true) Walkthrough.parsed_credential
              (MkAuthenticatorData "") store)
    as (self' & H & _); [reflexivity..|].
  by rewrite H.
Defined.

Lemma issued_registration_state_round_trip_witness :
  initial (AddWebAuthnForm.form (fst (AddWebAuthnForm.__init__ alice None ∅ world)))
    !! "signed_state"
  = Some (VStr "7:1").
Proof.
  destruct (issued_registration_state_round_trip alice None ∅ world
              Scenario.registration world) as [H _]; [reflexivity..|exact H].
Defined.
End Witnesses.
